(** * Git operations server: the four tool handlers of [src/main.py]

    The program is a dispatch layer: each handler ([git_add], [git_commit],
    [git_push], [git_status]) checks its parameters, resolves a working
    directory through [pathlib], composes an argument vector, hands it to
    [subprocess.run] and shapes the outcome into a dictionary.

    The embedding keeps that shape.  Python strings are sequences of code
    points; the file system and the process launcher are an explicit host
    whose state is threaded through every call; [return] and [raise] are
    completions of a small monad; every interaction with the host is
    recorded, with its answer, in the trace a handler call produces. *)

From Stdlib Require Import List String Ascii NArith ZArith Bool Lia.
Import ListNotations.
Local Open Scope list_scope.

Set Implicit Arguments.

(* ===================================================================== *)
(** ** Python strings *)
(* ===================================================================== *)

Module PyStr.

(** A [str] is a sequence of Unicode code points. *)
Definition str := list N.

(** A literal of the source, character by character. *)
Definition lit (s : string) : str :=
  map N_of_ascii (list_ascii_of_string s).

(** The characters [str.strip()] and [str.split()] treat as whitespace when
    they are called without argument (CPython's [Py_UNICODE_ISSPACE]). *)
Definition isspace (c : N) : bool :=
  ((9 <=? c) && (c <=? 13)           (* \t \n \v \f \r *)
   || (28 <=? c) && (c <=? 32)       (* FS GS RS US and the space *)
   || (c =? 133) || (c =? 160)       (* NEL, no-break space *)
   || (c =? 5760)                    (* U+1680 *)
   || (8192 <=? c) && (c <=? 8202)   (* U+2000 .. U+200A *)
   || (c =? 8232) || (c =? 8233)     (* U+2028, U+2029 *)
   || (c =? 8239) || (c =? 8287)     (* U+202F, U+205F *)
   || (c =? 12288))%N.               (* U+3000 *)

(** [s.lstrip()] *)
Fixpoint lstrip (s : str) : str :=
  match s with
  | [] => []
  | c :: s' => if isspace c then lstrip s' else s
  end.

(** [s.rstrip()] *)
Definition rstrip (s : str) : str := rev (lstrip (rev s)).

(** [s.strip()] *)
Definition strip (s : str) : str := rstrip (lstrip s).

(** [s.split()]: the maximal runs of non-whitespace characters, in order.
    [word] holds the run being read, last character first. *)
Fixpoint split_from (word : str) (s : str) : list str :=
  match s with
  | [] => match word with [] => [] | _ => [rev word] end
  | c :: s' =>
      if isspace c
      then match word with
           | [] => split_from [] s'
           | _ => rev word :: split_from [] s'
           end
      else split_from (c :: word) s'
  end.

Definition split (s : str) : list str := split_from [] s.

(** [sep.join(l)] *)
Fixpoint join (sep : str) (l : list str) : str :=
  match l with
  | [] => []
  | [x] => x
  | x :: l' => x ++ sep ++ join sep l'
  end.

(** Empty or whitespace only. *)
Definition blank (s : str) : bool := forallb isspace s.

(** Truth value of a string: [bool(s)] is [len(s) != 0]. *)
Definition truthy (s : str) : bool :=
  match s with [] => false | _ => true end.

(** Truth value of an [Optional[str]]: [None] and [""] are false.  A true
    value is handed back so that the guarded branch can use it. *)
Definition truthy_opt (o : option str) : option str :=
  match o with
  | Some (c :: s) => Some (c :: s)
  | _ => None
  end.

(** [l.insert(i, x)] for [i >= 0]: [x] goes before position [i], or at the
    end when the list is shorter. *)
Definition insert (A : Type) (i : nat) (x : A) (l : list A) : list A :=
  firstn i l ++ x :: skipn i l.

End PyStr.
Import PyStr.
Arguments lit : simpl never.

(* ===================================================================== *)
(** ** The host: [pathlib] and [subprocess] *)
(* ===================================================================== *)

(** A dictionary literal of the source, in the order it is written.  Every
    value the handlers store is a string. *)
Definition dict := list (str * str).

(** [d.get(key)] *)
Fixpoint get (key : str) (d : dict) : option str :=
  match d with
  | [] => None
  | (k, v) :: d' => if list_eq_dec N.eq_dec k key then Some v else get key d'
  end.

(** A [pathlib.Path]; [str(p)] is [fspath p]. *)
Record Path := mkPath { fspath : str }.

(** What [subprocess.run(cmd, cwd=..., capture_output=True, text=True,
    timeout=...)] is called with.  [capture_output] and [text] are [True] at
    every call site.  [timeout] is in seconds. *)
Record CommandSpec := mkCommand {
  argv : list str;
  cwd : Path;
  timeout : N
}.

(** The [CompletedProcess] that [subprocess.run] returns. *)
Record CompletedProcess := mkCompleted {
  returncode : Z;
  stdout : str;
  stderr : str
}.

(** How a [subprocess.run] call ends: it returns, it raises
    [subprocess.TimeoutExpired], or it raises another exception [e] (the
    program is missing, say), of which the handlers use [str(e)]. *)
Inductive RunOutcome :=
| Completed (p : CompletedProcess)
| TimedOut
| LaunchFailed (str_e : str).

(** How a [pathlib] call ends: with a value, or with an exception [e]. *)
Inductive fallible (A : Type) :=
| Ok (a : A)
| Failed (str_e : str).
Arguments Failed {A} str_e.

(** The host is a state machine on [W]: each call answers and moves on. *)
Record Host (W : Type) := mkHost {
  Path_resolve : str -> W -> fallible Path * W;   (* Path(s).resolve() *)
  Path_cwd : W -> fallible Path * W;              (* Path.cwd() *)
  Path_exists : Path -> W -> fallible bool * W;   (* p.exists() *)
  Path_truediv : Path -> str -> Path;             (* p / name *)
  subprocess_run : CommandSpec -> W -> RunOutcome * W
}.

(** One interaction with the host, with its answer. *)
Inductive Event :=
| EvResolve (s : str) (r : fallible Path)
| EvCwd (r : fallible Path)
| EvExists (p : Path) (r : fallible bool)
| EvRun (c : CommandSpec) (r : RunOutcome).

(** The external processes a trace spawned, in order, with how each ended;
    and the commands alone. *)
Fixpoint runs (t : list Event) : list (CommandSpec * RunOutcome) :=
  match t with
  | [] => []
  | EvRun c r :: t' => (c, r) :: runs t'
  | _ :: t' => runs t'
  end.

Definition spawned (t : list Event) : list CommandSpec := map fst (runs t).

(* ===================================================================== *)
(** ** Statements, [return] and [raise] *)
(* ===================================================================== *)

(** The exceptions the handlers tell apart. *)
Inductive exn :=
| TimeoutExpired
| Exception (str_e : str).

(** How a block of statements ends: it runs to its end with a value, it
    executes [return d], or it raises. *)
Inductive completion (A : Type) :=
| Normal (a : A)
| Returned (d : dict)
| Raised (e : exn).
Arguments Returned {A} d.
Arguments Raised {A} e.

Section Statements.
Variable W : Type.

Definition M (A : Type) := W -> completion A * W * list Event.

Definition ret (A : Type) (a : A) : M A := fun w => (Normal a, w, []).

Definition return_ (A : Type) (d : dict) : M A :=
  fun w => (Returned d, w, []).

Definition bind (A B : Type) (m : M A) (k : A -> M B) : M B :=
  fun w =>
    let '(c, w1, t1) := m w in
    match c with
    | Normal a => let '(c2, w2, t2) := k a w1 in (c2, w2, t1 ++ t2)
    | Returned d => (Returned d, w1, t1)
    | Raised e => (Raised e, w1, t1)
    end.

(** A function whose body is
    [try: body  except subprocess.TimeoutExpired: return d1
     except Exception as e: return d2(str(e))].
    The body ends in a [return] on every path, so it has no normal
    completion: its type says so. *)
Definition try_except (body : M Empty_set)
    (on_timeout : dict) (on_exception : str -> dict)
  : W -> dict * W * list Event :=
  fun w =>
    let '(c, w1, t1) := body w in
    (match c with
     | Normal a => match a with end
     | Returned d => d
     | Raised TimeoutExpired => on_timeout
     | Raised (Exception str_e) => on_exception str_e
     end, w1, t1).
End Statements.

Arguments ret {W A} a.
Arguments return_ {W A} d.
Arguments bind {W A B} m k.

Declare Scope py_scope.
Delimit Scope py_scope with py.
Notation "x <- m ;; k" := (bind m (fun x => k))
  (at level 61, m at next level, right associativity) : py_scope.
Notation "'TRY' body 'EXCEPT_TimeoutExpired' d1 'EXCEPT_Exception' e '=>' d2" :=
  (try_except body d1 (fun e => d2))
  (at level 10, body at level 200, d1 at level 200, e name, d2 at level 200,
   only parsing) : py_scope.
Local Open Scope py_scope.

(* ===================================================================== *)
(** ** The handlers *)
(* ===================================================================== *)

Section Handlers.
Context {W : Type} (host : Host W).

Definition lift (A : Type) (r : fallible A) : completion A :=
  match r with
  | Ok a => Normal a
  | Failed str_e => Raised (Exception str_e)
  end.

Definition resolve (s : str) : M W Path :=
  fun w => let '(r, w') := Path_resolve host s w in
           (lift r, w', [EvResolve s r]).

Definition getcwd : M W Path :=
  fun w => let '(r, w') := Path_cwd host w in (lift r, w', [EvCwd r]).

Definition exists_ (p : Path) : M W bool :=
  fun w => let '(r, w') := Path_exists host p w in
           (lift r, w', [EvExists p r]).

Definition run (cmd : list str) (cwd : Path) (timeout : N)
  : M W CompletedProcess :=
  fun w =>
    let c := mkCommand cmd cwd timeout in
    let '(r, w') := subprocess_run host c w in
    (match r with
     | Completed p => Normal p
     | TimedOut => Raised TimeoutExpired
     | LaunchFailed str_e => Raised (Exception str_e)
     end, w', [EvRun c r]).

Local Notation "p / name" := (Path_truediv host p name).

(** [# Set working directory] and [# Check if it's a git repository]:
    the same statements open [git_add] (lines 39-54), [git_status]
    (331-346), [git_push] (227-242) and, after the message check,
    [git_commit] (140-155).  They leave [repo_path] to what follows. *)
Definition set_working_directory (repository_path : option str)
  : M W Path :=
  repo_path <-
    match truthy_opt repository_path with
    | Some given =>
        repo_path <- resolve given ;;
        there <- exists_ repo_path ;;
        if negb there
        then return_
               [(lit "status", lit "error");
                (lit "message",
                 lit "Repository path does not exist: " ++ given)]
        else ret repo_path
    | None => getcwd
    end ;;
  marker <- exists_ (repo_path / lit ".git") ;;
  if negb marker
  then return_
         [(lit "status", lit "error");
          (lit "message", lit "Not a git repository: " ++ fspath repo_path)]
  else ret repo_path.

Definition git_add (files : option str)
    (all_files interactive patch : bool) (repository_path : option str)
  : W -> dict * W * list Event :=
  TRY
    repo_path <- set_working_directory repository_path ;;
    (* Build git add command *)
    let cmd := [lit "git"; lit "add"] in
    cmd <-
      (if interactive then ret (cmd ++ [lit "--interactive"])
       else if patch then ret (cmd ++ [lit "--patch"])
       else if all_files then ret (cmd ++ [lit "."])
       else match truthy_opt files with
            | Some files =>
                let file_list := split (strip files) in
                ret (cmd ++ file_list)
            | None =>
                return_
                  [(lit "status", lit "error");
                   (lit "message",
                    lit "Must specify either files, all_files=True, interactive=True, or patch=True")]
            end) ;;
    (* Execute the git add command *)
    result <- run cmd repo_path 30 ;;
    if (returncode result =? 0)%Z
    then return_
           [(lit "status", lit "success");
            (lit "message", lit "Files successfully added to staging area");
            (lit "command", join (lit " ") cmd);
            (lit "stdout",
             if truthy (strip (stdout result))
             then strip (stdout result) else lit "No output");
            (lit "repository_path", fspath repo_path)]
    else return_
           [(lit "status", lit "error");
            (lit "message", lit "Git add command failed");
            (lit "command", join (lit " ") cmd);
            (lit "stderr", strip (stderr result));
            (lit "repository_path", fspath repo_path)]
  EXCEPT_TimeoutExpired
    [(lit "status", lit "error");
     (lit "message", lit "Git add command timed out after 30 seconds")]
  EXCEPT_Exception str_e =>
    [(lit "status", lit "error");
     (lit "message", lit "Unexpected error: " ++ str_e)].

Definition git_commit (message : str) (all_files amend : bool)
    (repository_path : option str)
  : W -> dict * W * list Event :=
  TRY
    if negb (truthy (strip message))
    then return_
           [(lit "status", lit "error");
            (lit "message", lit "Commit message cannot be empty")]
    else
    repo_path <- set_working_directory repository_path ;;
    (* Build git commit command *)
    let cmd := [lit "git"; lit "commit"; lit "-m"; message] in
    let cmd := if all_files then insert 2 (lit "-a") cmd else cmd in
    let cmd := if amend then insert 2 (lit "--amend") cmd else cmd in
    (* Execute the git commit command *)
    result <- run cmd repo_path 30 ;;
    if (returncode result =? 0)%Z
    then return_
           [(lit "status", lit "success");
            (lit "message", lit "Commit created successfully");
            (lit "command", join (lit " ") cmd);
            (lit "stdout", strip (stdout result));
            (lit "repository_path", fspath repo_path)]
    else return_
           [(lit "status", lit "error");
            (lit "message", lit "Git commit command failed");
            (lit "command", join (lit " ") cmd);
            (lit "stderr", strip (stderr result));
            (lit "repository_path", fspath repo_path)]
  EXCEPT_TimeoutExpired
    [(lit "status", lit "error");
     (lit "message", lit "Git commit command timed out after 30 seconds")]
  EXCEPT_Exception str_e =>
    [(lit "status", lit "error");
     (lit "message", lit "Unexpected error: " ++ str_e)].

Definition git_push (remote : str) (branch : option str)
    (force set_upstream : bool) (repository_path : option str)
  : W -> dict * W * list Event :=
  TRY
    repo_path <- set_working_directory repository_path ;;
    (* Get current branch if no branch specified *)
    branch <-
      match branch with
      | None =>
          branch_result <-
            run [lit "git"; lit "branch"; lit "--show-current"]
                repo_path 10 ;;
          if (returncode branch_result =? 0)%Z
          then
            let branch := strip (stdout branch_result) in
            if negb (truthy branch)
            then return_
                   [(lit "status", lit "error");
                    (lit "message", lit "Could not determine current branch")]
            else ret branch
          else return_
                 [(lit "status", lit "error");
                  (lit "message", lit "Failed to get current branch");
                  (lit "stderr", strip (stderr branch_result))]
      | Some branch => ret branch
      end ;;
    (* Build git push command *)
    let cmd := [lit "git"; lit "push"] in
    let cmd := if set_upstream
               then cmd ++ [lit "-u"; remote; branch]
               else cmd ++ [remote; branch] in
    let cmd := if force then insert 2 (lit "--force") cmd else cmd in
    (* Execute the git push command *)
    result <- run cmd repo_path 120 ;;
    if (returncode result =? 0)%Z
    then return_
           [(lit "status", lit "success");
            (lit "message",
             lit "Successfully pushed to " ++ remote ++ lit "/" ++ branch);
            (lit "command", join (lit " ") cmd);
            (lit "stdout", strip (stdout result));
            (lit "stderr", strip (stderr result));
            (lit "repository_path", fspath repo_path)]
    else return_
           [(lit "status", lit "error");
            (lit "message",
             lit "Git push to " ++ remote ++ lit "/" ++ branch
               ++ lit " failed");
            (lit "command", join (lit " ") cmd);
            (lit "stderr", strip (stderr result));
            (lit "repository_path", fspath repo_path)]
  EXCEPT_TimeoutExpired
    [(lit "status", lit "error");
     (lit "message", lit "Git push command timed out after 2 minutes")]
  EXCEPT_Exception str_e =>
    [(lit "status", lit "error");
     (lit "message", lit "Unexpected error: " ++ str_e)].

Definition git_status (repository_path : option str)
  : W -> dict * W * list Event :=
  TRY
    repo_path <- set_working_directory repository_path ;;
    (* Get git status *)
    result <- run [lit "git"; lit "status"; lit "--porcelain"]
                  repo_path 10 ;;
    if (returncode result =? 0)%Z
    then return_
           [(lit "status", lit "success");
            (lit "repository_path", fspath repo_path);
            (lit "porcelain_output", strip (stdout result));
            (lit "message", lit "Git status retrieved successfully")]
    else return_
           [(lit "status", lit "error");
            (lit "message", lit "Git status command failed");
            (lit "stderr", strip (stderr result))]
  EXCEPT_TimeoutExpired
    [(lit "status", lit "error");
     (lit "message", lit "Git status command timed out")]
  EXCEPT_Exception str_e =>
    [(lit "status", lit "error");
     (lit "message", lit "Unexpected error: " ++ str_e)].

End Handlers.

(* ===================================================================== *)
(** ** The kinds of result the specification names *)
(* ===================================================================== *)

(** The handlers return plain dictionaries; the specification calls them by
    kind.  Each kind is the dictionary of the [return] statement it names. *)

Definition error (message : str) : dict :=
  [(lit "status", lit "error"); (lit "message", message)].

(** The supplied path does not exist; [given] is the caller's string. *)
Definition PathNotFound (given : str) : dict :=
  error (lit "Repository path does not exist: " ++ given).

(** The directory has no [.git]; [repo_path] is the resolved path. *)
Definition NotARepository (repo_path : Path) : dict :=
  error (lit "Not a git repository: " ++ fspath repo_path).

Definition MissingTarget : dict :=
  error (lit "Must specify either files, all_files=True, interactive=True, or patch=True").

Definition EmptyMessage : dict :=
  error (lit "Commit message cannot be empty").

Definition NoCurrentBranch : dict :=
  error (lit "Could not determine current branch").

Definition BranchQueryFailed (discovery_stderr : str) : dict :=
  [(lit "status", lit "error");
   (lit "message", lit "Failed to get current branch");
   (lit "stderr", discovery_stderr)].

(** The result of every handler's [except Exception as e]. *)
Definition unexpected (str_e : str) : dict :=
  error (lit "Unexpected error: " ++ str_e).

Inductive Tool := Add | Commit | Push | Status.

(** The dictionary [git_status] returns for a finished query. *)
Definition status_result (repo_path : Path) (result : CompletedProcess)
  : dict :=
  if (returncode result =? 0)%Z
  then [(lit "status", lit "success");
        (lit "repository_path", fspath repo_path);
        (lit "porcelain_output", strip (stdout result));
        (lit "message", lit "Git status retrieved successfully")]
  else [(lit "status", lit "error");
        (lit "message", lit "Git status command failed");
        (lit "stderr", strip (stderr result))].

(** The message of each handler's [except subprocess.TimeoutExpired]. *)
Definition timeout_message (tool : Tool) : str :=
  match tool with
  | Add => lit "Git add command timed out after 30 seconds"
  | Commit => lit "Git commit command timed out after 30 seconds"
  | Push => lit "Git push command timed out after 2 minutes"
  | Status => lit "Git status command timed out"
  end.

Definition Timeout (tool : Tool) : dict := error (timeout_message tool).

(** The branch name a discovery answer gives, if it gives one: the process
    finished with exit code 0 and printed more than whitespace. *)
Definition discovered (r : RunOutcome) : option str :=
  match r with
  | Completed branch_result =>
      if (returncode branch_result =? 0)%Z
      then match strip (stdout branch_result) with
           | [] => None
           | branch => Some branch
           end
      else None
  | _ => None
  end.

(** What [git_push] returns when the discovery gives no branch name. *)
Definition discovery_result (r : RunOutcome) : dict :=
  match r with
  | Completed branch_result =>
      if (returncode branch_result =? 0)%Z
      then NoCurrentBranch
      else BranchQueryFailed (strip (stderr branch_result))
  | TimedOut => Timeout Push
  | LaunchFailed str_e => unexpected str_e
  end.

(** What a handler call yields: the dictionary returned, the host's state
    afterwards, and the trace of the call. *)
Definition result_of (W : Type) (out : dict * W * list Event) : dict :=
  fst (fst out).
Definition trace_of (W : Type) (out : dict * W * list Event) : list Event :=
  snd out.

(** The call asked [Path.cwd()] before anything else. *)
Definition asks_cwd_first (W : Type) (out : dict * W * list Event) : Prop :=
  exists r t, trace_of out = EvCwd r :: t.

(** The call resolved no caller-supplied path and did not report one as
    missing. *)
Definition no_path_lookup (W : Type) (out : dict * W * list Event) : Prop :=
  (forall given, result_of out <> PathNotFound given)
  /\ (forall s r, ~ In (EvResolve s r) (trace_of out)).

(** The program and the arguments each handler composes, as the statements
    under [# Build git ... command] leave them in [cmd]. *)
Definition add_command (files : option str)
    (all_files interactive patch : bool) : option (list str) :=
  if interactive then Some [lit "git"; lit "add"; lit "--interactive"]
  else if patch then Some [lit "git"; lit "add"; lit "--patch"]
  else if all_files then Some [lit "git"; lit "add"; lit "."]
  else match truthy_opt files with
       | Some files => Some ([lit "git"; lit "add"] ++ split (strip files))
       | None => None
       end.

Definition commit_command (message : str) (all_files amend : bool)
  : list str :=
  [lit "git"; lit "commit"]
    ++ (if amend then [lit "--amend"] else [])
    ++ (if all_files then [lit "-a"] else [])
    ++ [lit "-m"; message].

Definition push_command (remote branch : str) (force set_upstream : bool)
  : list str :=
  [lit "git"; lit "push"]
    ++ (if force then [lit "--force"] else [])
    ++ (if set_upstream then [lit "-u"] else [])
    ++ [remote; branch].

(** Two features that tell the returned dictionaries apart: the number of
    entries and the first character of the second value (the message, in
    every error). *)
Definition shape (d : dict) : nat * N :=
  (List.length d, hd 0%N (snd (nth 1 d ([], [])))).

(** How the answer [r] of the launcher shows in the dictionary [d] a
    handler returns: the timeout and the other exceptions have their fixed
    results, and a finished process gives ["success"] exactly on exit code
    0, in a dictionary of at least three entries. *)
Definition reports (tool : Tool) (r : RunOutcome) (d : dict) : Prop :=
  match r with
  | TimedOut => d = Timeout tool
  | LaunchFailed str_e => d = unexpected str_e
  | Completed result =>
      get (lit "status") d
      = Some (if (returncode result =? 0)%Z
              then lit "success" else lit "error")
      /\ 3 <= List.length d
  end.

(** The call ended in the opening checks: they returned an error, or
    [pathlib] raised. *)
Inductive stopped (W : Type) (host : Host W)
    (repository_path : option str) (w : W)
  : dict * W * list Event -> Prop :=
| stopped_rejected d w1 t1 :
    set_working_directory host repository_path w = (Returned d, w1, t1) ->
    stopped host repository_path w (d, w1, t1)
| stopped_raised str_e w1 t1 :
    set_working_directory host repository_path w
    = (Raised (Exception str_e), w1, t1) ->
    stopped host repository_path w (unexpected str_e, w1, t1).

(** The branch-discovery command of [git_push]. *)
Definition discovery (repo_path : Path) : CommandSpec :=
  mkCommand [lit "git"; lit "branch"; lit "--show-current"] repo_path 10.

(** [needle in s] *)
Fixpoint startswith (needle s : str) : bool :=
  match needle, s with
  | [], _ => true
  | _ :: _, [] => false
  | a :: needle', b :: s' => (a =? b)%N && startswith needle' s'
  end.

Fixpoint contains (needle s : str) : bool :=
  startswith needle s ||
  match s with
  | [] => false
  | _ :: s' => contains needle s'
  end.

Definition isdigit (c : N) : bool := ((48 <=? c) && (c <=? 57))%N.

(* ===================================================================== *)
(** ** The dictionaries of a finished process *)
(* ===================================================================== *)

(** What the [if result.returncode == 0: ... else: ...] of each handler
    returns, from [cmd], [repo_path] and the finished process. *)
Definition add_result (cmd : list str) (repo_path : Path)
    (result : CompletedProcess) : dict :=
  if (returncode result =? 0)%Z
  then [(lit "status", lit "success");
        (lit "message", lit "Files successfully added to staging area");
        (lit "command", join (lit " ") cmd);
        (lit "stdout",
         if truthy (strip (stdout result))
         then strip (stdout result) else lit "No output");
        (lit "repository_path", fspath repo_path)]
  else [(lit "status", lit "error");
        (lit "message", lit "Git add command failed");
        (lit "command", join (lit " ") cmd);
        (lit "stderr", strip (stderr result));
        (lit "repository_path", fspath repo_path)].

Definition commit_result (cmd : list str) (repo_path : Path)
    (result : CompletedProcess) : dict :=
  if (returncode result =? 0)%Z
  then [(lit "status", lit "success");
        (lit "message", lit "Commit created successfully");
        (lit "command", join (lit " ") cmd);
        (lit "stdout", strip (stdout result));
        (lit "repository_path", fspath repo_path)]
  else [(lit "status", lit "error");
        (lit "message", lit "Git commit command failed");
        (lit "command", join (lit " ") cmd);
        (lit "stderr", strip (stderr result));
        (lit "repository_path", fspath repo_path)].

Definition push_result (remote branch : str) (cmd : list str)
    (repo_path : Path) (result : CompletedProcess) : dict :=
  if (returncode result =? 0)%Z
  then [(lit "status", lit "success");
        (lit "message",
         lit "Successfully pushed to " ++ remote ++ lit "/" ++ branch);
        (lit "command", join (lit " ") cmd);
        (lit "stdout", strip (stdout result));
        (lit "stderr", strip (stderr result));
        (lit "repository_path", fspath repo_path)]
  else [(lit "status", lit "error");
        (lit "message",
         lit "Git push to " ++ remote ++ lit "/" ++ branch ++ lit " failed");
        (lit "command", join (lit " ") cmd);
        (lit "stderr", strip (stderr result));
        (lit "repository_path", fspath repo_path)].

(** What a handler returns after its last [subprocess.run]: the dictionary
    of the finished process, or the result of one of its [except]. *)
Definition shaped (tool : Tool) (completed : CompletedProcess -> dict)
    (r : RunOutcome) : dict :=
  match r with
  | Completed result => completed result
  | TimedOut => Timeout tool
  | LaunchFailed str_e => unexpected str_e
  end.

(** [str(e)] when the host answered with an exception other than the
    timeout. *)
Definition failure_of (ev : Event) : option str :=
  match ev with
  | EvResolve _ (Failed str_e) => Some str_e
  | EvCwd (Failed str_e) => Some str_e
  | EvExists _ (Failed str_e) => Some str_e
  | EvRun _ (LaunchFailed str_e) => Some str_e
  | _ => None
  end.

(** A process that was given [limit] seconds finished with exit code 0. *)
Definition succeeded (limit : N) (t : list Event) : Prop :=
  exists c result,
    In (c, Completed result) (runs t)
    /\ timeout c = limit /\ returncode result = 0%Z.

(** The ["status"] of the result is ["success"] or ["error"], and it is
    ["success"] exactly when the process with [limit] seconds finished with
    exit code 0. *)
Definition status_by_exit (W : Type) (limit : N)
    (out : dict * W * list Event) : Prop :=
  (get (lit "status") (result_of out) = Some (lit "success")
   \/ get (lit "status") (result_of out) = Some (lit "error"))
  /\ (get (lit "status") (result_of out) = Some (lit "success")
      <-> succeeded limit (trace_of out)).

(** Every exception of the host, the timeout apart, is the result. *)
Definition failures_reported (W : Type) (out : dict * W * list Event)
  : Prop :=
  forall ev str_e,
    In ev (trace_of out) -> failure_of ev = Some str_e ->
    result_of out = unexpected str_e.

(** Every process of the call is [git], has one of the [limits], and runs
    in the directory the call settled on: the resolved [repository_path],
    or the current directory when there is none, in which [.git] was seen
    to exist. *)
Definition runs_in_repository (W : Type) (host : Host W)
    (repository_path : option str) (limits : list N)
    (out : dict * W * list Event) : Prop :=
  forall c r,
    In (c, r) (runs (trace_of out)) ->
    hd [] (argv c) = lit "git"
    /\ In (timeout c) limits
    /\ In (EvExists (Path_truediv host (cwd c) (lit ".git")) (Ok true))
          (trace_of out)
    /\ match truthy_opt repository_path with
       | Some given => In (EvResolve given (Ok (cwd c))) (trace_of out)
       | None => In (EvCwd (Ok (cwd c))) (trace_of out)
       end.

(* ===================================================================== *)
(** ** A scripted host for concrete runs *)
(* ===================================================================== *)

(** The file system is the list of paths that exist; relative paths resolve
    under [/work], which is also the current directory.  The state is the
    script of answers the launcher still has to give. *)
Definition str_eqb (a b : str) : bool :=
  if list_eq_dec N.eq_dec a b then true else false.

Definition mock (existing : list str) : Host (list RunOutcome) :=
  {| Path_resolve := fun s w =>
       (Ok (mkPath (if startswith (lit "/") s then s
                    else lit "/work/" ++ s)), w);
     Path_cwd := fun w => (Ok (mkPath (lit "/work")), w);
     Path_exists := fun p w => (Ok (existsb (str_eqb (fspath p)) existing), w);
     Path_truediv := fun p name => mkPath (fspath p ++ lit "/" ++ name);
     subprocess_run := fun c w =>
       match w with
       | [] => (LaunchFailed (lit "[Errno 2] No such file or directory: 'git'"), [])
       | r :: w' => (r, w')
       end |}.

(** [/work] is a repository, [/tmp] is a plain directory. *)
Definition disk : list str := [lit "/work"; lit "/work/.git"; lit "/tmp"].

Definition work : Path := mkPath (lit "/work").

Definition exit0 (out : str) : RunOutcome := Completed (mkCompleted 0 out []).

(** Unfold what follows the opening checks of a handler. *)
Ltac rest :=
  unfold try_except, bind, run, ret, return_; simpl.

(* ===================================================================== *)
(** ** Facts about the string operations *)
(* ===================================================================== *)

Example split_two_files :
  split (strip (lit "a.txt b.txt")) = [lit "a.txt"; lit "b.txt"].
Proof. reflexivity. Qed.

Example strip_keeps_inner :
  strip (lit "  fix  the   bug ") = lit "fix  the   bug".
Proof. reflexivity. Qed.

Example join_cmd :
  join (lit " ") [lit "git"; lit "add"; lit "."] = lit "git add .".
Proof. reflexivity. Qed.

Lemma lstrip_blank s : blank s = true -> lstrip s = [].
Proof.
  induction s as [|c s IH]; simpl; auto.
  destruct (isspace c); simpl; auto. discriminate.
Qed.

Lemma lstrip_nil s : lstrip s = [] -> blank s = true.
Proof.
  induction s as [|c s IH]; simpl; auto.
  destruct (isspace c); simpl; auto. discriminate.
Qed.

(** What [lstrip] leaves starts with a character that is no whitespace. *)
Lemma lstrip_head s c r : lstrip s = c :: r -> isspace c = false.
Proof.
  induction s as [|a s IH]; simpl; try discriminate.
  destruct (isspace a) eqn:E; auto.
  intros H; injection H as -> _; exact E.
Qed.

(** [lstrip] removes a whitespace prefix and nothing else. *)
Lemma lstrip_decompose s :
  exists pre, s = pre ++ lstrip s /\ blank pre = true.
Proof.
  induction s as [|c s [pre [E B]]]; simpl.
  - exists []; auto.
  - destruct (isspace c) eqn:Ec.
    + exists (c :: pre); simpl. rewrite Ec, B, <- E; auto.
    + exists []; auto.
Qed.

Lemma forallb_reverse (f : N -> bool) s : forallb f (rev s) = forallb f s.
Proof.
  induction s as [|c s IH]; simpl; auto.
  rewrite forallb_app, IH; simpl. rewrite andb_true_r, andb_comm; auto.
Qed.

Lemma blank_rev s : blank (rev s) = blank s.
Proof. apply forallb_reverse. Qed.

Lemma blank_app a b : blank (a ++ b) = blank a && blank b.
Proof. apply forallb_app. Qed.

Lemma rstrip_decompose s :
  exists post, s = rstrip s ++ post /\ blank post = true.
Proof.
  unfold rstrip. destruct (lstrip_decompose (rev s)) as [pre [E B]].
  exists (rev pre). rewrite blank_rev; split; auto.
  rewrite <- rev_app_distr, <- E, rev_involutive; auto.
Qed.

(** [strip] keeps a contiguous slice of its argument: what it removes is a
    whitespace prefix and a whitespace suffix. *)
Lemma strip_decompose s :
  exists pre post,
    s = pre ++ strip s ++ post /\ blank pre = true /\ blank post = true.
Proof.
  destruct (lstrip_decompose s) as [pre [E1 B1]].
  destruct (rstrip_decompose (lstrip s)) as [post [E2 B2]].
  exists pre, post. unfold strip. rewrite <- E2, <- E1; auto.
Qed.

(** A string strips to nothing exactly when it is empty or all whitespace. *)
Lemma strip_nil_iff s : strip s = [] <-> blank s = true.
Proof.
  split.
  - intros H. destruct (strip_decompose s) as [pre [post [E [B1 B2]]]].
    rewrite E, H, !blank_app, B1, B2; auto.
  - intros H. unfold strip. rewrite (lstrip_blank s H); reflexivity.
Qed.

(** The slice [strip] keeps neither starts nor ends with whitespace. *)
Lemma strip_first s c r : strip s = c :: r -> isspace c = false.
Proof.
  unfold strip, rstrip. intros H.
  destruct (lstrip s) as [|a l] eqn:El; [discriminate|].
  pose proof (lstrip_head _ El) as Ha.
  destruct (lstrip_decompose (rev (a :: l))) as [pre [E B]].
  assert (E' : a :: l = rev (lstrip (rev (a :: l))) ++ rev pre).
  { rewrite <- rev_app_distr, <- E, rev_involutive; auto. }
  rewrite H in E'. simpl in E'. injection E' as -> _. exact Ha.
Qed.

Lemma strip_last s r c : strip s = r ++ [c] -> isspace c = false.
Proof.
  unfold strip, rstrip. intros H.
  apply (f_equal (@rev N)) in H.
  rewrite rev_involutive, rev_app_distr in H. simpl in H.
  exact (lstrip_head _ H).
Qed.

(** The tokens of [split] are non-empty and free of whitespace, and they
    are the characters of the string, whitespace removed, in order. *)
Lemma split_from_tokens word s :
  forallb (fun c => negb (isspace c)) word = true ->
  Forall (fun tok => tok <> [] /\ forallb (fun c => negb (isspace c)) tok = true)
         (split_from word s).
Proof.
  revert word. induction s as [|c s IH]; intros word Hw; simpl.
  - destruct word as [|a word]; constructor; auto.
    split.
    + intros E. apply (f_equal (@List.length N)) in E.
      rewrite length_rev in E. discriminate.
    + rewrite forallb_reverse; auto.
  - destruct (isspace c) eqn:Ec.
    + destruct word as [|a word]; [apply IH; auto|].
      constructor; [|apply IH; auto].
      split.
      * intros E. apply (f_equal (@List.length N)) in E.
        rewrite length_rev in E. discriminate.
      * rewrite forallb_reverse; auto.
    + apply IH. simpl. rewrite Ec, Hw; auto.
Qed.

Lemma split_from_concat word s :
  List.concat (split_from word s)
  = rev word ++ filter (fun c => negb (isspace c)) s.
Proof.
  revert word. induction s as [|c s IH]; intros word; simpl.
  - destruct word; simpl; rewrite ?app_nil_r; auto.
  - destruct (isspace c) eqn:Ec; simpl.
    + destruct word as [|a word]; simpl; rewrite IH; auto.
    + rewrite IH. simpl. rewrite <- app_assoc; auto.
Qed.

Lemma split_tokens s :
  Forall (fun tok => tok <> [] /\ forallb (fun c => negb (isspace c)) tok = true)
         (split s)
  /\ List.concat (split s) = filter (fun c => negb (isspace c)) s.
Proof.
  split; [apply split_from_tokens; auto | apply (split_from_concat [] s)].
Qed.

(** A string has no token exactly when it is empty or all whitespace. *)
Lemma split_nil_iff s : split s = [] <-> blank s = true.
Proof.
  unfold split. split.
  - intros H. pose proof (split_from_concat [] s) as C.
    rewrite H in C; simpl in C. clear H.
    unfold blank. induction s as [|c s IH]; simpl in *; auto.
    destruct (isspace c) eqn:Ec; simpl in *; [auto | discriminate].
  - induction s as [|c s IH]; simpl; auto.
    destruct (isspace c); simpl; auto. discriminate.
Qed.

Lemma filter_blank s :
  blank s = true -> filter (fun c => negb (isspace c)) s = [].
Proof.
  unfold blank. induction s as [|c s IH]; simpl; auto.
  destruct (isspace c); simpl; [auto | discriminate].
Qed.

(** The tokens of [files.strip().split()] are the whitespace-separated
    tokens of [files]: none is empty or holds whitespace, and together
    they are the other characters of [files], in order. *)
Lemma files_tokens files :
  Forall (fun tok => tok <> [] /\ forallb (fun c => negb (isspace c)) tok = true)
         (split (strip files))
  /\ List.concat (split (strip files))
     = filter (fun c => negb (isspace c)) files.
Proof.
  destruct (split_tokens (strip files)) as [T C]. split; [exact T|].
  rewrite C.
  destruct (strip_decompose files) as [pre [post [E [B1 B2]]]].
  rewrite E at 2. rewrite !filter_app.
  rewrite (filter_blank _ B1), (filter_blank _ B2), app_nil_r. reflexivity.
Qed.

(* ===================================================================== *)
(** ** Running the statements *)
(* ===================================================================== *)

Section Running.
Context {W : Type} (host : Host W).

(** A [try] whose body starts with [m]: when [m] runs to its end the rest
    runs from there; when [m] returns, the function returns. *)
Lemma try_bind_normal (A : Type) (m : M W A) (k : A -> M W Empty_set)
    d1 d2 w a w1 t1 :
  m w = (Normal a, w1, t1) ->
  try_except (bind m k) d1 d2 w
  = let '(d, w2, t2) := try_except (k a) d1 d2 w1 in (d, w2, t1 ++ t2).
Proof.
  intros H. unfold try_except, bind. rewrite H.
  destruct (k a w1) as [[c w2] t2]. reflexivity.
Qed.

Lemma try_bind_returned (A : Type) (m : M W A) (k : A -> M W Empty_set)
    d1 d2 w d w1 t1 :
  m w = (Returned d, w1, t1) ->
  try_except (bind m k) d1 d2 w = (d, w1, t1).
Proof. intros H. unfold try_except, bind. rewrite H. reflexivity. Qed.

Lemma try_bind_raised (A : Type) (m : M W A) (k : A -> M W Empty_set)
    d1 d2 w str_e w1 t1 :
  m w = (Raised (Exception str_e), w1, t1) ->
  try_except (bind m k) d1 d2 w = (d2 str_e, w1, t1).
Proof. intros H. unfold try_except, bind. rewrite H. reflexivity. Qed.

(** The two checks spawn nothing and raise no timeout. *)
Lemma set_working_directory_quiet repository_path w c w1 t1 :
  set_working_directory host repository_path w = (c, w1, t1) ->
  runs t1 = [] /\ c <> Raised TimeoutExpired.
Proof.
  unfold set_working_directory, bind, resolve, getcwd, exists_, ret, return_.
  destruct (truthy_opt repository_path) as [given|].
  - destruct (Path_resolve host given w) as [[rp|e] wa]; simpl;
      [|intros H; injection H as <- <- <-; split; [auto | discriminate]].
    destruct (Path_exists host rp wa) as [[[|]|e] wb]; simpl;
      try (intros H; injection H as <- <- <-; split; [auto | discriminate]).
    destruct (Path_exists host (Path_truediv host rp (lit ".git")) wb)
      as [[[|]|e] wc]; simpl;
      intros H; injection H as <- <- <-; split; auto; discriminate.
  - destruct (Path_cwd host w) as [[rp|e] wa]; simpl;
      [|intros H; injection H as <- <- <-; split; [auto | discriminate]].
    destruct (Path_exists host (Path_truediv host rp (lit ".git")) wa)
      as [[[|]|e] wc]; simpl;
      intros H; injection H as <- <- <-; split; auto; discriminate.
Qed.

Lemma runs_app t1 t2 : runs (t1 ++ t2) = runs t1 ++ runs t2.
Proof.
  induction t1 as [|e t1 IH]; simpl; auto.
  destruct e; simpl; rewrite ?IH; auto.
Qed.

Lemma runs_after_checks repository_path w c w1 t1 t2 :
  set_working_directory host repository_path w = (c, w1, t1) ->
  runs (t1 ++ t2) = runs t2.
Proof.
  intros H. apply set_working_directory_quiet in H.
  rewrite runs_app. destruct H as [-> _]. reflexivity.
Qed.

(** The cases of [set_working_directory]. *)
Lemma set_working_directory_cases repository_path w :
  (exists rp w1 t1,
      set_working_directory host repository_path w = (Normal rp, w1, t1))
  \/ (exists d w1 t1,
      set_working_directory host repository_path w = (Returned d, w1, t1))
  \/ (exists str_e w1 t1,
      set_working_directory host repository_path w
      = (Raised (Exception str_e), w1, t1)).
Proof.
  destruct (set_working_directory host repository_path w)
    as [[[rp|d|[|str_e]] w1] t1] eqn:E; eauto 6.
  apply set_working_directory_quiet in E. destruct E as [_ E]. congruence.
Qed.

End Running.


(* ===================================================================== *)
(** ** What each handler does once the working directory is settled *)
(* ===================================================================== *)

Section Resolution.
Context {W : Type} (host : Host W).

Local Notation "p / name" := (Path_truediv host p name).

(** The three ways the checks reject a call. *)
Lemma path_not_found repository_path given w p w1 w2 :
  truthy_opt repository_path = Some given ->
  Path_resolve host given w = (Ok p, w1) ->
  Path_exists host p w1 = (Ok false, w2) ->
  set_working_directory host repository_path w
  = (Returned (PathNotFound given), w2,
     [EvResolve given (Ok p); EvExists p (Ok false)]).
Proof.
  intros T R E. unfold set_working_directory, bind, resolve, exists_.
  rewrite T, R; simpl. rewrite E; reflexivity.
Qed.

Lemma given_not_a_repository repository_path given w p w1 w2 w3 :
  truthy_opt repository_path = Some given ->
  Path_resolve host given w = (Ok p, w1) ->
  Path_exists host p w1 = (Ok true, w2) ->
  Path_exists host (p / lit ".git") w2 = (Ok false, w3) ->
  set_working_directory host repository_path w
  = (Returned (NotARepository p), w3,
     [EvResolve given (Ok p); EvExists p (Ok true);
      EvExists (p / lit ".git") (Ok false)]).
Proof.
  intros T R E G. unfold set_working_directory, bind, resolve, exists_.
  rewrite T, R; simpl. rewrite E; simpl. rewrite G; reflexivity.
Qed.

Lemma cwd_not_a_repository repository_path w p w1 w2 :
  truthy_opt repository_path = None ->
  Path_cwd host w = (Ok p, w1) ->
  Path_exists host (p / lit ".git") w1 = (Ok false, w2) ->
  set_working_directory host repository_path w
  = (Returned (NotARepository p), w2,
     [EvCwd (Ok p); EvExists (p / lit ".git") (Ok false)]).
Proof.
  intros T C G. unfold set_working_directory, bind, getcwd, exists_.
  rewrite T, C; simpl. rewrite G; reflexivity.
Qed.

(** Without a path to look up, the current directory is asked first, no
    path is resolved, and nothing is reported missing. *)
Lemma omitted_path repository_path w c w1 t1 :
  truthy_opt repository_path = None ->
  set_working_directory host repository_path w = (c, w1, t1) ->
  (exists r t, t1 = EvCwd r :: t)
  /\ (forall s r, ~ In (EvResolve s r) t1)
  /\ (forall given, c <> Returned (PathNotFound given)).
Proof.
  intros T. unfold set_working_directory, bind, getcwd, exists_, ret, return_.
  rewrite T.
  destruct (Path_cwd host w) as [[p|e] wa]; simpl.
  - destruct (Path_exists host (p / lit ".git") wa) as [[[|]|e] wb]; simpl;
      intros H; injection H as <- <- <-;
      (split; [eauto | split; [simpl; intuition discriminate |]]);
      discriminate.
  - intros H; injection H as <- <- <-.
    split; [eauto | split; [simpl; intuition discriminate | discriminate]].
Qed.

(** A rejected call returns the rejection; an exception of [pathlib]
    becomes the unexpected-error result. *)
Lemma git_add_rejected files all_files interactive patch
    repository_path w d w1 t1 :
  set_working_directory host repository_path w = (Returned d, w1, t1) ->
  git_add host files all_files interactive patch repository_path w
  = (d, w1, t1).
Proof. intros H. unfold git_add. apply try_bind_returned, H. Qed.

Lemma git_push_rejected remote branch force set_upstream
    repository_path w d w1 t1 :
  set_working_directory host repository_path w = (Returned d, w1, t1) ->
  git_push host remote branch force set_upstream repository_path w
  = (d, w1, t1).
Proof. intros H. unfold git_push. apply try_bind_returned, H. Qed.

Lemma git_status_rejected repository_path w d w1 t1 :
  set_working_directory host repository_path w = (Returned d, w1, t1) ->
  git_status host repository_path w = (d, w1, t1).
Proof. intros H. unfold git_status. apply try_bind_returned, H. Qed.

Lemma truthy_strip message :
  blank message = false -> truthy (strip message) = true.
Proof.
  intros B. destruct (strip message) eqn:E; auto.
  apply strip_nil_iff in E. congruence.
Qed.

Lemma git_commit_blank message all_files amend repository_path w :
  blank message = true ->
  git_commit host message all_files amend repository_path w
  = (EmptyMessage, w, []).
Proof.
  intros B. apply strip_nil_iff in B.
  unfold git_commit. rewrite B. reflexivity.
Qed.

Lemma git_commit_rejected message all_files amend
    repository_path w d w1 t1 :
  blank message = false ->
  set_working_directory host repository_path w = (Returned d, w1, t1) ->
  git_commit host message all_files amend repository_path w
  = (d, w1, t1).
Proof.
  intros B H. unfold git_commit. rewrite (truthy_strip _ B); simpl.
  apply try_bind_returned, H.
Qed.

Lemma git_add_raised files all_files interactive patch
    repository_path w str_e w1 t1 :
  set_working_directory host repository_path w
  = (Raised (Exception str_e), w1, t1) ->
  git_add host files all_files interactive patch repository_path w
  = (unexpected str_e, w1, t1).
Proof.
  intros H. unfold git_add. rewrite (try_bind_raised _ _ _ _ _ H); reflexivity.
Qed.

Lemma git_push_raised remote branch force set_upstream
    repository_path w str_e w1 t1 :
  set_working_directory host repository_path w
  = (Raised (Exception str_e), w1, t1) ->
  git_push host remote branch force set_upstream repository_path w
  = (unexpected str_e, w1, t1).
Proof.
  intros H. unfold git_push. rewrite (try_bind_raised _ _ _ _ _ H); reflexivity.
Qed.

Lemma git_status_raised repository_path w str_e w1 t1 :
  set_working_directory host repository_path w
  = (Raised (Exception str_e), w1, t1) ->
  git_status host repository_path w = (unexpected str_e, w1, t1).
Proof.
  intros H. unfold git_status. rewrite (try_bind_raised _ _ _ _ _ H); reflexivity.
Qed.

Lemma git_commit_raised message all_files amend
    repository_path w str_e w1 t1 :
  blank message = false ->
  set_working_directory host repository_path w
  = (Raised (Exception str_e), w1, t1) ->
  git_commit host message all_files amend repository_path w
  = (unexpected str_e, w1, t1).
Proof.
  intros B H. unfold git_commit. rewrite (truthy_strip _ B); simpl.
  rewrite (try_bind_raised _ _ _ _ _ H); reflexivity.
Qed.

End Resolution.

Section Execution.
Context {W : Type} (host : Host W).

Lemma git_status_resolved repository_path w p w1 t1 r w2 :
  let c := mkCommand [lit "git"; lit "status"; lit "--porcelain"] p 10 in
  set_working_directory host repository_path w = (Normal p, w1, t1) ->
  subprocess_run host c w1 = (r, w2) ->
  git_status host repository_path w
  = (match r with
     | Completed result => status_result p result
     | TimedOut => Timeout Status
     | LaunchFailed str_e => unexpected str_e
     end, w2, t1 ++ [EvRun c r]).
Proof.
  intros c S R. unfold git_status.
  rewrite (try_bind_normal _ _ _ _ _ S). rest. fold c. rewrite R.
  destruct r as [result| |str_e]; simpl; auto.
  unfold status_result. destruct (returncode result =? 0)%Z; auto.
Qed.

Lemma status_result_reports p r :
  reports Status r
    match r with
    | Completed result => status_result p result
    | TimedOut => Timeout Status
    | LaunchFailed str_e => unexpected str_e
    end.
Proof.
  destruct r as [result| |str_e]; simpl; auto.
  unfold status_result.
  destruct (returncode result =? 0)%Z; simpl; split; auto; lia.
Qed.

Lemma git_add_missing files all_files interactive patch
    repository_path w p w1 t1 :
  set_working_directory host repository_path w = (Normal p, w1, t1) ->
  add_command files all_files interactive patch = None ->
  git_add host files all_files interactive patch repository_path w
  = (MissingTarget, w1, t1).
Proof.
  intros S C. unfold git_add.
  rewrite (try_bind_normal _ _ _ _ _ S). rest.
  unfold add_command in C.
  destruct interactive, patch, all_files; try discriminate.
  destruct (truthy_opt files); try discriminate.
  simpl. rewrite app_nil_r. reflexivity.
Qed.

Lemma git_add_resolved files all_files interactive patch
    repository_path w p w1 t1 cmd r w2 :
  set_working_directory host repository_path w = (Normal p, w1, t1) ->
  add_command files all_files interactive patch = Some cmd ->
  subprocess_run host (mkCommand cmd p 30) w1 = (r, w2) ->
  exists d,
    git_add host files all_files interactive patch repository_path w
    = (d, w2, t1 ++ [EvRun (mkCommand cmd p 30) r])
    /\ reports Add r d.
Proof.
  intros S C R. unfold add_command in C.
  unfold git_add. rewrite (try_bind_normal _ _ _ _ _ S).
  destruct interactive, patch, all_files; simpl in C;
    try (destruct (truthy_opt files) as [f|] eqn:E; [|discriminate]);
    injection C as <-; rest; try rewrite E; simpl; rewrite R;
    (destruct r as [result| |str_e]; simpl; eauto;
     destruct (returncode result =? 0)%Z eqn:Z0; simpl;
     eexists; (split; [reflexivity|]); (split; [reflexivity | simpl; lia])).
Qed.

Lemma git_commit_resolved message all_files amend
    repository_path w p w1 t1 r w2 :
  let c := mkCommand (commit_command message all_files amend) p 30 in
  blank message = false ->
  set_working_directory host repository_path w = (Normal p, w1, t1) ->
  subprocess_run host c w1 = (r, w2) ->
  exists d,
    git_commit host message all_files amend repository_path w
    = (d, w2, t1 ++ [EvRun c r])
    /\ reports Commit r d.
Proof.
  intros c B S R. unfold git_commit.
  rewrite (truthy_strip _ B); simpl.
  rewrite (try_bind_normal _ _ _ _ _ S). rest.
  assert (E :
    (if amend
     then insert 2 (lit "--amend")
            (if all_files
             then insert 2 (lit "-a")
                    [lit "git"; lit "commit"; lit "-m"; message]
             else [lit "git"; lit "commit"; lit "-m"; message])
     else if all_files
          then insert 2 (lit "-a")
                 [lit "git"; lit "commit"; lit "-m"; message]
          else [lit "git"; lit "commit"; lit "-m"; message])
    = commit_command message all_files amend).
  { destruct amend, all_files; reflexivity. }
  rewrite E. fold c. rewrite R.
  destruct r as [result| |str_e]; simpl; eauto.
  destruct (returncode result =? 0)%Z eqn:Z0; simpl;
    eexists; (split; [reflexivity|]); (split; [reflexivity | simpl; lia]).
Qed.

Lemma git_push_given remote b force set_upstream
    repository_path w p w1 t1 r w2 :
  let c := mkCommand (push_command remote b force set_upstream) p 120 in
  set_working_directory host repository_path w = (Normal p, w1, t1) ->
  subprocess_run host c w1 = (r, w2) ->
  exists d,
    git_push host remote (Some b) force set_upstream repository_path w
    = (d, w2, t1 ++ [EvRun c r])
    /\ reports Push r d.
Proof.
  intros c S R. unfold git_push.
  rewrite (try_bind_normal _ _ _ _ _ S). rest.
  assert (E :
    (if force
     then insert 2 (lit "--force")
            (if set_upstream
             then [lit "git"; lit "push"; lit "-u"; remote; b]
             else [lit "git"; lit "push"; remote; b])
     else if set_upstream
          then [lit "git"; lit "push"; lit "-u"; remote; b]
          else [lit "git"; lit "push"; remote; b])
    = push_command remote b force set_upstream).
  { destruct force, set_upstream; reflexivity. }
  rewrite E. fold c. rewrite R.
  destruct r as [result| |str_e]; simpl; eauto.
  destruct (returncode result =? 0)%Z eqn:Z0; simpl;
    eexists; (split; [reflexivity|]); (split; [reflexivity | simpl; lia]).
Qed.

Lemma git_push_discovery_stops remote force set_upstream
    repository_path w p w1 t1 r0 w2 :
  set_working_directory host repository_path w = (Normal p, w1, t1) ->
  subprocess_run host (discovery p) w1 = (r0, w2) ->
  discovered r0 = None ->
  git_push host remote None force set_upstream repository_path w
  = (discovery_result r0, w2, t1 ++ [EvRun (discovery p) r0]).
Proof.
  intros S R D. unfold git_push.
  rewrite (try_bind_normal _ _ _ _ _ S). rest.
  fold (discovery p). rewrite R.
  destruct r0 as [result| |str_e]; simpl in *; auto.
  destruct (returncode result =? 0)%Z; simpl; auto.
  destruct (strip (stdout result)); [reflexivity | discriminate].
Qed.

Lemma git_push_discovered remote force set_upstream
    repository_path w p w1 t1 r0 w2 b r w3 :
  let c := mkCommand (push_command remote b force set_upstream) p 120 in
  set_working_directory host repository_path w = (Normal p, w1, t1) ->
  subprocess_run host (discovery p) w1 = (r0, w2) ->
  discovered r0 = Some b ->
  subprocess_run host c w2 = (r, w3) ->
  exists d,
    git_push host remote None force set_upstream repository_path w
    = (d, w3, t1 ++ [EvRun (discovery p) r0; EvRun c r])
    /\ reports Push r d.
Proof.
  intros c S R0 D R. unfold git_push.
  rewrite (try_bind_normal _ _ _ _ _ S). rest.
  fold (discovery p). rewrite R0.
  destruct r0 as [result0| |str_e0]; simpl in D; try discriminate.
  destruct (returncode result0 =? 0)%Z; try discriminate.
  destruct (strip (stdout result0)) as [|ch br] eqn:Eb; try discriminate.
  injection D as <-. subst c. unfold push_command, insert in *.
  destruct force, set_upstream; simpl in *; rewrite R;
    (destruct r as [result| |str_e]; simpl; eauto;
     destruct (returncode result =? 0)%Z eqn:Z0; simpl;
     eexists; (split; [reflexivity|]); (split; [reflexivity | simpl; lia])).
Qed.

End Execution.

(* ===================================================================== *)
(** ** Every way a handler call can go *)
(* ===================================================================== *)

Section Inversion.
Context {W : Type} (host : Host W).

Lemma stopped_runs repository_path w out :
  stopped host repository_path w out -> runs (trace_of out) = [].
Proof.
  intros [d w1 t1 H|str_e w1 t1 H];
    apply set_working_directory_quiet in H; apply H.
Qed.

Lemma unexpected_not_path_not_found str_e given :
  unexpected str_e <> PathNotFound given.
Proof.
  intros H. apply (f_equal shape) in H. vm_compute in H. discriminate.
Qed.

Lemma reports_not_path_not_found tool r d given :
  reports tool r d -> d <> PathNotFound given.
Proof.
  destruct r as [result| |str_e]; simpl.
  - intros [_ L] ->. simpl in L. lia.
  - intros -> H. apply (f_equal shape) in H.
    destruct tool; vm_compute in H; discriminate.
  - intros ->. apply unexpected_not_path_not_found.
Qed.

Lemma stopped_omitted repository_path w out :
  truthy_opt repository_path = None ->
  stopped host repository_path w out ->
  asks_cwd_first out /\ no_path_lookup out.
Proof.
  intros T [d w1 t1 H|str_e w1 t1 H];
    destruct (omitted_path host _ _ T H) as [C [R N]];
    unfold asks_cwd_first, no_path_lookup, result_of, trace_of; simpl;
    repeat split; auto.
  - intros given E. apply (N given). congruence.
  - intros given. apply unexpected_not_path_not_found.
Qed.

(** Once the checks pass with an omitted path, whatever follows keeps the
    trace starting at [Path.cwd()] and free of resolutions. *)
Lemma resolved_omitted repository_path w p w1 t1 d (w2 : W) t2 :
  truthy_opt repository_path = None ->
  set_working_directory host repository_path w = (Normal p, w1, t1) ->
  (forall s r, ~ In (EvResolve s r) t2) ->
  (forall given, d <> PathNotFound given) ->
  asks_cwd_first (d, w2, t1 ++ t2) /\ no_path_lookup (d, w2, t1 ++ t2).
Proof.
  intros T H N2 D. destruct (omitted_path host _ _ T H) as [[r [t ->]] [R _]].
  unfold asks_cwd_first, no_path_lookup, result_of, trace_of; simpl.
  repeat split; eauto.
  intros s r' [E|I]; [discriminate|].
  apply in_app_or in I. destruct I as [I|I].
  - apply (R s r'). right; auto.
  - apply (N2 s r'); auto.
Qed.

Lemma git_status_inv repository_path w :
  stopped host repository_path w (git_status host repository_path w)
  \/ exists p w1 t1 r w2,
      let c := mkCommand [lit "git"; lit "status"; lit "--porcelain"] p 10 in
      set_working_directory host repository_path w = (Normal p, w1, t1)
      /\ subprocess_run host c w1 = (r, w2)
      /\ git_status host repository_path w
         = (match r with
            | Completed result => status_result p result
            | TimedOut => Timeout Status
            | LaunchFailed str_e => unexpected str_e
            end, w2, t1 ++ [EvRun c r]).
Proof.
  destruct (set_working_directory_cases host repository_path w)
    as [(p & w1 & t1 & S)|[(d & w1 & t1 & S)|(e & w1 & t1 & S)]].
  - right.
    destruct (subprocess_run host
                (mkCommand [lit "git"; lit "status"; lit "--porcelain"] p 10)
                w1) as [r w2] eqn:R.
    exists p, w1, t1, r, w2. repeat split; auto.
    eapply git_status_resolved; eassumption.
  - left. erewrite git_status_rejected by eassumption. apply stopped_rejected; auto.
  - left. erewrite git_status_raised by eassumption. apply stopped_raised; auto.
Qed.

Lemma git_add_inv files all_files interactive patch repository_path w :
  let out := git_add host files all_files interactive patch
               repository_path w in
  stopped host repository_path w out
  \/ (exists p w1 t1,
        set_working_directory host repository_path w = (Normal p, w1, t1)
        /\ add_command files all_files interactive patch = None
        /\ out = (MissingTarget, w1, t1))
  \/ (exists p w1 t1 cmd r w2 d,
        set_working_directory host repository_path w = (Normal p, w1, t1)
        /\ add_command files all_files interactive patch = Some cmd
        /\ subprocess_run host (mkCommand cmd p 30) w1 = (r, w2)
        /\ out = (d, w2, t1 ++ [EvRun (mkCommand cmd p 30) r])
        /\ reports Add r d).
Proof.
  intros out. subst out.
  destruct (set_working_directory_cases host repository_path w)
    as [(p & w1 & t1 & S)|[(d & w1 & t1 & S)|(e & w1 & t1 & S)]].
  - right.
    destruct (add_command files all_files interactive patch)
      as [cmd|] eqn:C.
    + right.
      destruct (subprocess_run host (mkCommand cmd p 30) w1)
        as [r w2] eqn:R.
      destruct (@git_add_resolved W host _ _ _ _ _ _ _ _ _ _ _ _ S C R)
        as [d [E Rep]].
      exists p, w1, t1, cmd, r, w2, d. auto.
    + left. exists p, w1, t1. repeat split; auto.
      eapply git_add_missing; eassumption.
  - left. erewrite git_add_rejected by eassumption. apply stopped_rejected; auto.
  - left. erewrite git_add_raised by eassumption. apply stopped_raised; auto.
Qed.

Lemma git_commit_inv message all_files amend repository_path w :
  blank message = false ->
  let out := git_commit host message all_files amend repository_path w in
  stopped host repository_path w out
  \/ (exists p w1 t1 r w2 d,
        let c := mkCommand (commit_command message all_files amend) p 30 in
        set_working_directory host repository_path w = (Normal p, w1, t1)
        /\ subprocess_run host c w1 = (r, w2)
        /\ out = (d, w2, t1 ++ [EvRun c r])
        /\ reports Commit r d).
Proof.
  intros B out. subst out.
  destruct (set_working_directory_cases host repository_path w)
    as [(p & w1 & t1 & S)|[(d & w1 & t1 & S)|(e & w1 & t1 & S)]].
  - right.
    destruct (subprocess_run host
                (mkCommand (commit_command message all_files amend) p 30) w1)
      as [r w2] eqn:R.
    destruct (@git_commit_resolved W host _ _ _ _ _ _ _ _ _ _ B S R)
      as [d [E Rep]].
    exists p, w1, t1, r, w2, d. auto.
  - left. erewrite git_commit_rejected by eassumption. apply stopped_rejected; auto.
  - left. erewrite git_commit_raised by eassumption. apply stopped_raised; auto.
Qed.

Lemma git_push_given_inv remote b force set_upstream repository_path w :
  let out := git_push host remote (Some b) force set_upstream
               repository_path w in
  stopped host repository_path w out
  \/ (exists p w1 t1 r w2 d,
        let c := mkCommand (push_command remote b force set_upstream) p 120 in
        set_working_directory host repository_path w = (Normal p, w1, t1)
        /\ subprocess_run host c w1 = (r, w2)
        /\ out = (d, w2, t1 ++ [EvRun c r])
        /\ reports Push r d).
Proof.
  intros out. subst out.
  destruct (set_working_directory_cases host repository_path w)
    as [(p & w1 & t1 & S)|[(d & w1 & t1 & S)|(e & w1 & t1 & S)]].
  - right.
    destruct (subprocess_run host
                (mkCommand (push_command remote b force set_upstream) p 120)
                w1) as [r w2] eqn:R.
    destruct (@git_push_given W host _ _ _ _ _ _ _ _ _ _ _ S R)
      as [d [E Rep]].
    exists p, w1, t1, r, w2, d. auto.
  - left. erewrite git_push_rejected by eassumption. apply stopped_rejected; auto.
  - left. erewrite git_push_raised by eassumption. apply stopped_raised; auto.
Qed.

Lemma git_push_discovery_inv remote force set_upstream repository_path w :
  let out := git_push host remote None force set_upstream
               repository_path w in
  stopped host repository_path w out
  \/ (exists p w1 t1 r0 w2,
        set_working_directory host repository_path w = (Normal p, w1, t1)
        /\ subprocess_run host (discovery p) w1 = (r0, w2)
        /\ discovered r0 = None
        /\ out = (discovery_result r0, w2, t1 ++ [EvRun (discovery p) r0]))
  \/ (exists p w1 t1 r0 w2 b r w3 d,
        let c := mkCommand (push_command remote b force set_upstream) p 120 in
        set_working_directory host repository_path w = (Normal p, w1, t1)
        /\ subprocess_run host (discovery p) w1 = (r0, w2)
        /\ discovered r0 = Some b
        /\ subprocess_run host c w2 = (r, w3)
        /\ out = (d, w3, t1 ++ [EvRun (discovery p) r0; EvRun c r])
        /\ reports Push r d).
Proof.
  intros out. subst out.
  destruct (set_working_directory_cases host repository_path w)
    as [(p & w1 & t1 & S)|[(d & w1 & t1 & S)|(e & w1 & t1 & S)]].
  - right.
    destruct (subprocess_run host (discovery p) w1) as [r0 w2] eqn:R0.
    destruct (discovered r0) as [b|] eqn:D.
    + right.
      destruct (subprocess_run host
                  (mkCommand (push_command remote b force set_upstream) p 120)
                  w2) as [r w3] eqn:R.
      destruct (@git_push_discovered W host _ _ _ _ _ _ _ _ _ _ _ _ _ S R0 D R)
        as [d [E Rep]].
      exists p, w1, t1, r0, w2, b, r, w3, d. auto 7.
    + left. exists p, w1, t1, r0, w2. repeat split; auto.
      eapply git_push_discovery_stops; eassumption.
  - left. erewrite git_push_rejected by eassumption. apply stopped_rejected; auto.
  - left. erewrite git_push_raised by eassumption. apply stopped_raised; auto.
Qed.

(** What [git_push] spawns once the checks have passed. *)
Lemma git_push_given_spawned remote b force set_upstream
    repository_path w p w1 t1 :
  set_working_directory host repository_path w = (Normal p, w1, t1) ->
  spawned (trace_of (git_push host remote (Some b) force set_upstream
                       repository_path w))
  = [mkCommand (push_command remote b force set_upstream) p 120].
Proof.
  intros S.
  destruct (subprocess_run host
              (mkCommand (push_command remote b force set_upstream) p 120)
              w1) as [r w2] eqn:R.
  destruct (@git_push_given W host _ _ _ _ _ _ _ _ _ _ _ S R) as [d [E _]].
  rewrite E. unfold spawned, trace_of; simpl.
  erewrite runs_after_checks by exact S. reflexivity.
Qed.

Lemma found_branch result :
  returncode result = 0%Z -> strip (stdout result) <> [] ->
  discovered (Completed result) = Some (strip (stdout result)).
Proof.
  intros Z N. simpl. rewrite Z. simpl.
  destruct (strip (stdout result)); [contradiction | reflexivity].
Qed.

Lemma git_push_found_spawned remote force set_upstream
    repository_path w p w1 t1 result w2 :
  set_working_directory host repository_path w = (Normal p, w1, t1) ->
  subprocess_run host (discovery p) w1 = (Completed result, w2) ->
  returncode result = 0%Z -> strip (stdout result) <> [] ->
  spawned (trace_of (git_push host remote None force set_upstream
                       repository_path w))
  = [discovery p;
     mkCommand (push_command remote (strip (stdout result)) force
                  set_upstream) p 120].
Proof.
  intros S R0 Z N. pose proof (found_branch _ Z N) as D.
  destruct (subprocess_run host
              (mkCommand (push_command remote (strip (stdout result)) force
                            set_upstream) p 120) w2) as [r w3] eqn:R.
  destruct (@git_push_discovered W host _ _ _ _ _ _ _ _ _ _ _ _ _ S R0 D R)
    as [d [E _]].
  rewrite E. unfold spawned, trace_of; simpl.
  erewrite runs_after_checks by exact S. reflexivity.
Qed.

Lemma git_push_discovery_first remote force set_upstream
    repository_path w p w1 t1 :
  set_working_directory host repository_path w = (Normal p, w1, t1) ->
  hd_error (spawned (trace_of (git_push host remote None force set_upstream
                                 repository_path w)))
  = Some (discovery p).
Proof.
  intros S.
  destruct (subprocess_run host (discovery p) w1) as [r0 w2] eqn:R0.
  destruct (discovered r0) as [b|] eqn:D.
  - destruct (subprocess_run host
                (mkCommand (push_command remote b force set_upstream) p 120)
                w2) as [r w3] eqn:R.
    destruct (@git_push_discovered W host _ _ _ _ _ _ _ _ _ _ _ _ _
                S R0 D R) as [d [E _]].
    rewrite E. unfold spawned, trace_of; simpl.
    erewrite runs_after_checks by exact S. reflexivity.
  - erewrite git_push_discovery_stops by eassumption.
    unfold spawned, trace_of; simpl.
    erewrite runs_after_checks by exact S. reflexivity.
Qed.

End Inversion.

(* ===================================================================== *)
(** ** The claims *)
(* ===================================================================== *)

(** [H] says that a run is in the trace [t1 ++ [EvRun ..]] of a call whose
    checks [S] passed: find which run it is. *)
Ltac ran H :=
  unfold trace_of, result_of in *; simpl fst in *; simpl snd in *;
  match goal with
  | S : set_working_directory _ _ _ = _ |- _ =>
      erewrite runs_after_checks in H by exact S
  end;
  simpl in H;
  repeat match type of H with
         | _ \/ _ => destruct H as [H|H]
         | False => destruct H
         end;
  injection H as <- ->; simpl in *.

Section Claims.
Context {W : Type} (host : Host W).

Local Notation "p / name" := (Path_truediv host p name).

(** C5.  A [git_commit] call whose message is empty or whitespace-only
    returns the EmptyMessage error at once, whatever the other parameters
    are: the host is not asked anything (no path is resolved, no process
    is spawned) and its state is untouched. *)
Theorem commit_empty_message message all_files amend repository_path w :
  blank message = true ->
  git_commit host message all_files amend repository_path w
  = (EmptyMessage, w, []).
Proof. apply git_commit_blank. Qed.

(** C10.  For every handler an empty [repository_path] is an omitted
    one: the call with [""] is the call with [None].  It asks for the
    current directory first, resolves no path and never reports
    PathNotFound.  ([git_commit] gets there when its message is not
    blank; with a blank one it asks the host nothing.) *)
Theorem empty_path_is_omitted
    files all_files interactive patch message amend
    remote branch force set_upstream w :
  let empty := Some (lit "") in
  (git_add host files all_files interactive patch empty w
   = git_add host files all_files interactive patch None w
   /\ asks_cwd_first (git_add host files all_files interactive patch empty w)
   /\ no_path_lookup (git_add host files all_files interactive patch empty w))
  /\ (git_commit host message all_files amend empty w
      = git_commit host message all_files amend None w
      /\ (blank message = false ->
          asks_cwd_first (git_commit host message all_files amend empty w))
      /\ no_path_lookup (git_commit host message all_files amend empty w))
  /\ (git_push host remote branch force set_upstream empty w
      = git_push host remote branch force set_upstream None w
      /\ asks_cwd_first (git_push host remote branch force set_upstream empty w)
      /\ no_path_lookup (git_push host remote branch force set_upstream empty w))
  /\ (git_status host empty w = git_status host None w
      /\ asks_cwd_first (git_status host empty w)
      /\ no_path_lookup (git_status host empty w)).
Proof.
  intros empty.
  assert (T : truthy_opt empty = None) by reflexivity.
  assert (NR : forall c r s r', ~ In (EvResolve s r') [EvRun c r]).
  { intros c r s r' [E|[]]. discriminate. }
  assert (ADD : asks_cwd_first (git_add host files all_files interactive patch empty w)
                /\ no_path_lookup (git_add host files all_files interactive patch empty w)).
  { destruct (git_add_inv host files all_files interactive patch empty w)
      as [St|[(p & w1 & t1 & S & C & ->)
             |(p & w1 & t1 & cmd & r & w2 & d & S & C & R & -> & Rep)]].
    - eapply stopped_omitted; eauto.
    - rewrite <- (app_nil_r t1).
      eapply resolved_omitted; eauto.
      intros given H. apply (f_equal shape) in H. vm_compute in H.
      discriminate.
    - eapply resolved_omitted; eauto.
      intros given. eapply reports_not_path_not_found; eauto. }
  assert (COMMIT : (blank message = false ->
            asks_cwd_first (git_commit host message all_files amend empty w))
            /\ no_path_lookup (git_commit host message all_files amend empty w)).
  { destruct (blank message) eqn:B.
    - rewrite git_commit_blank by exact B. split; [discriminate|].
      split; simpl; auto.
      intros given H. apply (f_equal shape) in H. vm_compute in H.
      discriminate.
    - destruct (git_commit_inv host message all_files amend empty w B)
        as [St|(p & w1 & t1 & r & w2 & d & S & R & -> & Rep)].
      + destruct (stopped_omitted T St); auto.
      + assert (X : asks_cwd_first
                      (d, w2, t1 ++ [EvRun (mkCommand
                         (commit_command message all_files amend) p 30) r])
                    /\ no_path_lookup
                         (d, w2, t1 ++ [EvRun (mkCommand
                            (commit_command message all_files amend) p 30) r])).
        { eapply resolved_omitted; eauto.
          intros given. eapply reports_not_path_not_found; eauto. }
        destruct X; auto. }
  assert (PUSH : asks_cwd_first (git_push host remote branch force set_upstream empty w)
                 /\ no_path_lookup (git_push host remote branch force set_upstream empty w)).
  { destruct branch as [b|].
    - destruct (git_push_given_inv host remote b force set_upstream empty w)
        as [St|(p & w1 & t1 & r & w2 & d & S & R & -> & Rep)].
      + eapply stopped_omitted; eauto.
      + eapply resolved_omitted; eauto.
        intros given. eapply reports_not_path_not_found; eauto.
    - destruct (git_push_discovery_inv host remote force set_upstream empty w)
        as [St|[(p & w1 & t1 & r0 & w2 & S & R0 & D & ->)
               |(p & w1 & t1 & r0 & w2 & b & r & w3 & d
                 & S & R0 & D & R & -> & Rep)]].
      + eapply stopped_omitted; eauto.
      + eapply resolved_omitted; eauto.
        intros given H. apply (f_equal shape) in H.
        destruct r0 as [result| |str_e]; simpl in H;
          [destruct (returncode result =? 0)%Z|..];
          vm_compute in H; discriminate.
      + eapply resolved_omitted; eauto.
        * intros s r' [E|[E|[]]]; discriminate.
        * intros given. eapply reports_not_path_not_found; eauto. }
  assert (STATUS : asks_cwd_first (git_status host empty w)
                   /\ no_path_lookup (git_status host empty w)).
  { destruct (git_status_inv host empty w)
      as [St|(p & w1 & t1 & r & w2 & S & R & ->)].
    - eapply stopped_omitted; eauto.
    - eapply resolved_omitted; eauto.
      intros given. eapply reports_not_path_not_found.
      apply status_result_reports. }
  intuition.
Qed.

(** C3, as amended.  A supplied, non-empty repository path that does not
    exist makes every handler return the PathNotFound error, whose
    message carries the caller's string as given; one that exists but has
    no [.git] makes every handler return the NotARepository error, whose
    message carries the resolved path.  The four handlers return the
    same dictionary, and no process is spawned.  [git_commit] checks its
    message first, so this is for a message that is not blank. *)
Theorem resolution_errors
    files all_files interactive patch message amend
    remote branch force set_upstream
    repository_path given w p w1 w2 :
  repository_path = Some given -> given <> [] ->
  blank message = false ->
  Path_resolve host given w = (Ok p, w1) ->
  (Path_exists host p w1 = (Ok false, w2) ->
   let out :=
     (PathNotFound given, w2,
      [EvResolve given (Ok p); EvExists p (Ok false)]) in
   git_add host files all_files interactive patch repository_path w = out
   /\ git_commit host message all_files amend repository_path w = out
   /\ git_push host remote branch force set_upstream repository_path w = out
   /\ git_status host repository_path w = out
   /\ get (lit "message") (result_of out)
      = Some (lit "Repository path does not exist: " ++ given)
   /\ spawned (trace_of out) = [])
  /\ (forall w3,
      Path_exists host p w1 = (Ok true, w2) ->
      Path_exists host (p / lit ".git") w2 = (Ok false, w3) ->
      let out :=
        (NotARepository p, w3,
         [EvResolve given (Ok p); EvExists p (Ok true);
          EvExists (p / lit ".git") (Ok false)]) in
      git_add host files all_files interactive patch repository_path w = out
      /\ git_commit host message all_files amend repository_path w = out
      /\ git_push host remote branch force set_upstream repository_path w
         = out
      /\ git_status host repository_path w = out
      /\ get (lit "message") (result_of out)
         = Some (lit "Not a git repository: " ++ fspath p)
      /\ spawned (trace_of out) = []).
Proof.
  intros -> G B R.
  assert (T : truthy_opt (Some given) = Some given).
  { destruct given; [contradiction | reflexivity]. }
  split.
  - intros E out.
    pose proof (path_not_found host _ _ T R E) as S.
    repeat split.
    + eapply git_add_rejected; eauto.
    + eapply git_commit_rejected; eauto.
    + eapply git_push_rejected; eauto.
    + eapply git_status_rejected; eauto.
  - intros w3 E M out.
    pose proof (given_not_a_repository host _ _ T R E M) as S.
    repeat split.
    + eapply git_add_rejected; eauto.
    + eapply git_commit_rejected; eauto.
    + eapply git_push_rejected; eauto.
    + eapply git_status_rejected; eauto.
Qed.

(** C1, as amended.  A [git_add] call with [interactive], [patch] and
    [all_files] false and [files] absent or the empty string spawns no
    process, and once the working directory has passed its checks the
    call returns the MissingTarget error. *)
Theorem missing_target files repository_path w :
  files = None \/ files = Some [] ->
  let out := git_add host files false false false repository_path w in
  spawned (trace_of out) = []
  /\ (forall p w1 t1,
      set_working_directory host repository_path w = (Normal p, w1, t1) ->
      out = (MissingTarget, w1, t1)).
Proof.
  intros F out.
  assert (C : add_command files false false false = None).
  { destruct F as [-> | ->]; reflexivity. }
  split.
  - unfold spawned.
    destruct (git_add_inv host files false false false repository_path w)
      as [St|[(p & w1 & t1 & S & _ & E)
             |(p & w1 & t1 & cmd & r & w2 & d & S & C' & _)]].
    + fold out in St. rewrite (stopped_runs St). reflexivity.
    + fold out in E. rewrite E. unfold trace_of; simpl.
      apply set_working_directory_quiet in S. destruct S as [-> _].
      reflexivity.
    + congruence.
  - intros p w1 t1 S. eapply git_add_missing; eauto.
Qed.

(** C2, as amended.  When the launcher raises the timeout, the handler
    returns its fixed timeout error.  For [git_add] and [git_commit] the
    process had 30 seconds and the message says so; for the push invocation
    of [git_push] it had 120 seconds and the message says 2 minutes; for
    [git_status] it had 10 seconds and the message names no duration. *)
Theorem timeout_results
    files all_files interactive patch message amend
    remote branch force set_upstream repository_path w :
  (forall c,
      In (c, TimedOut)
         (runs (trace_of (git_add host files all_files interactive patch
                            repository_path w))) ->
      result_of (git_add host files all_files interactive patch
                   repository_path w) = Timeout Add
      /\ timeout c = 30%N)
  /\ (forall c,
      In (c, TimedOut)
         (runs (trace_of (git_commit host message all_files amend
                            repository_path w))) ->
      result_of (git_commit host message all_files amend repository_path w)
      = Timeout Commit
      /\ timeout c = 30%N)
  /\ (forall c,
      In (c, TimedOut)
         (runs (trace_of (git_push host remote branch force set_upstream
                            repository_path w))) ->
      timeout c = 120%N ->
      result_of (git_push host remote branch force set_upstream
                   repository_path w) = Timeout Push)
  /\ (forall c,
      In (c, TimedOut)
         (runs (trace_of (git_status host repository_path w))) ->
      result_of (git_status host repository_path w) = Timeout Status
      /\ timeout c = 10%N)
  /\ contains (lit "30 seconds") (timeout_message Add) = true
  /\ contains (lit "30 seconds") (timeout_message Commit) = true
  /\ contains (lit "2 minutes") (timeout_message Push) = true
  /\ timeout_message Status = lit "Git status command timed out".
Proof.
  repeat match goal with |- _ /\ _ => split end; try reflexivity.
  - intros c H.
    destruct (git_add_inv host files all_files interactive patch
                repository_path w)
      as [St|[(p & w1 & t1 & S & _ & E)
             |(p & w1 & t1 & cmd & r & w2 & d & S & _ & _ & E & Rep)]].
    + rewrite (stopped_runs St) in H. destruct H.
    + rewrite E in H. unfold trace_of in H; simpl in H.
      apply set_working_directory_quiet in S. destruct S as [S _].
      rewrite S in H. destruct H.
    + rewrite E in *. ran H. auto.
  - intros c H. destruct (blank message) eqn:B.
    + rewrite git_commit_blank in H by exact B. destruct H.
    + destruct (git_commit_inv host message all_files amend
                  repository_path w B)
        as [St|(p & w1 & t1 & r & w2 & d & S & _ & E & Rep)].
      * rewrite (stopped_runs St) in H. destruct H.
      * rewrite E in *. ran H. auto.
  - intros c H T. destruct branch as [b|].
    + destruct (git_push_given_inv host remote b force set_upstream
                  repository_path w)
        as [St|(p & w1 & t1 & r & w2 & d & S & _ & E & Rep)].
      * rewrite (stopped_runs St) in H. destruct H.
      * rewrite E in *. ran H. auto.
    + destruct (git_push_discovery_inv host remote force set_upstream
                  repository_path w)
        as [St|[(p & w1 & t1 & r0 & w2 & S & _ & _ & E)
               |(p & w1 & t1 & r0 & w2 & b & r & w3 & d
                 & S & _ & _ & _ & E & Rep)]].
      * rewrite (stopped_runs St) in H. destruct H.
      * rewrite E in *. ran H. discriminate.
      * rewrite E in *. ran H; [discriminate | auto].
  - intros c H.
    destruct (git_status_inv host repository_path w)
      as [St|(p & w1 & t1 & r & w2 & S & _ & E)].
    + rewrite (stopped_runs St) in H. destruct H.
    + rewrite E in *. ran H. auto.
Qed.

(** C4.  A call of [git_add], [git_commit], [git_status], or of [git_push]
    with a branch, spawns at most one process.  [git_push] without a branch
    spawns nothing, or the discovery alone, or the discovery and then the
    push of the branch it found.  Once the checks pass the discovery is the
    first process spawned, and when it ends with exit code 0 and a name the
    push of that name follows: the discovery once, then the push.  When
    the discovery ends with exit code 0 and an empty name the result is
    NoCurrentBranch, when it ends with another exit code the result is
    BranchQueryFailed with its error stream, and in both cases nothing is
    pushed.  With a branch given and the checks passed, the push is the one
    process. *)
Theorem one_process_per_call
    files all_files interactive patch message amend
    remote force set_upstream repository_path w :
  (List.length (spawned (trace_of (git_add host files all_files interactive
                                     patch repository_path w))) <= 1
   /\ List.length (spawned (trace_of (git_commit host message all_files amend
                                        repository_path w))) <= 1
   /\ List.length (spawned (trace_of (git_status host repository_path w))) <= 1
   /\ forall b,
       List.length (spawned (trace_of (git_push host remote (Some b) force
                                         set_upstream repository_path w)))
       <= 1)
  /\ let out := git_push host remote None force set_upstream
                  repository_path w in
     (spawned (trace_of out) = []
      \/ exists p,
          spawned (trace_of out) = [discovery p]
          \/ exists b,
              b <> []
              /\ spawned (trace_of out)
                 = [discovery p;
                    mkCommand (push_command remote b force set_upstream)
                      p 120])
     /\ (forall p result rest,
         runs (trace_of out) = (discovery p, Completed result) :: rest ->
         (returncode result = 0%Z -> strip (stdout result) = [] ->
          result_of out = NoCurrentBranch /\ rest = [])
         /\ (returncode result <> 0%Z ->
             result_of out = BranchQueryFailed (strip (stderr result))
             /\ rest = []))
     /\ (forall p w1 t1,
         set_working_directory host repository_path w = (Normal p, w1, t1) ->
         hd_error (spawned (trace_of out)) = Some (discovery p)
         /\ (forall result w2,
             subprocess_run host (discovery p) w1 = (Completed result, w2) ->
             returncode result = 0%Z -> strip (stdout result) <> [] ->
             spawned (trace_of out)
             = [discovery p;
                mkCommand (push_command remote (strip (stdout result))
                             force set_upstream) p 120])
         /\ (forall b,
             spawned (trace_of (git_push host remote (Some b) force
                                  set_upstream repository_path w))
             = [mkCommand (push_command remote b force set_upstream)
                  p 120])).
Proof.
  assert (Pos : forall p w1 t1,
    set_working_directory host repository_path w = (Normal p, w1, t1) ->
    hd_error (spawned (trace_of (git_push host remote None force
                                   set_upstream repository_path w)))
    = Some (discovery p)
    /\ (forall result w2,
        subprocess_run host (discovery p) w1 = (Completed result, w2) ->
        returncode result = 0%Z -> strip (stdout result) <> [] ->
        spawned (trace_of (git_push host remote None force set_upstream
                             repository_path w))
        = [discovery p;
           mkCommand (push_command remote (strip (stdout result))
                        force set_upstream) p 120])
    /\ (forall b,
        spawned (trace_of (git_push host remote (Some b) force
                             set_upstream repository_path w))
        = [mkCommand (push_command remote b force set_upstream) p 120])).
  { intros p w1 t1 S. split; [|split].
    - eapply git_push_discovery_first; eassumption.
    - intros result w2 R0 Z N. eapply git_push_found_spawned; eassumption.
    - intros b. eapply git_push_given_spawned; eassumption. }
  cut ((List.length (spawned (trace_of (git_add host files all_files
                                          interactive patch
                                          repository_path w))) <= 1
        /\ List.length (spawned (trace_of (git_commit host message all_files
                                             amend repository_path w))) <= 1
        /\ List.length (spawned (trace_of (git_status host
                                             repository_path w))) <= 1
        /\ forall b,
            List.length (spawned (trace_of (git_push host remote (Some b)
                                              force set_upstream
                                              repository_path w))) <= 1)
       /\ let out := git_push host remote None force set_upstream
                       repository_path w in
          (spawned (trace_of out) = []
           \/ exists p,
               spawned (trace_of out) = [discovery p]
               \/ exists b,
                   b <> []
                   /\ spawned (trace_of out)
                      = [discovery p;
                         mkCommand (push_command remote b force set_upstream)
                           p 120])
          /\ forall p result rest,
              runs (trace_of out) = (discovery p, Completed result) :: rest ->
              (returncode result = 0%Z -> strip (stdout result) = [] ->
               result_of out = NoCurrentBranch /\ rest = [])
              /\ (returncode result <> 0%Z ->
                  result_of out = BranchQueryFailed (strip (stderr result))
                  /\ rest = [])).
  { cbv zeta. intros (A & B & C).
    split; [exact A|]. split; [exact B|]. split; [exact C | exact Pos]. }
  clear Pos.
  unfold spawned. split; [repeat split|].
  - destruct (git_add_inv host files all_files interactive patch
                repository_path w)
      as [St|[(p & w1 & t1 & S & _ & E)
             |(p & w1 & t1 & cmd & r & w2 & d & S & _ & _ & E & _)]].
    + rewrite (stopped_runs St). simpl; lia.
    + rewrite E. unfold trace_of; simpl.
      apply set_working_directory_quiet in S. destruct S as [-> _].
      simpl; lia.
    + rewrite E. unfold trace_of; simpl.
      erewrite runs_after_checks by exact S. simpl; lia.
  - destruct (blank message) eqn:B.
    + rewrite git_commit_blank by exact B. simpl; lia.
    + destruct (git_commit_inv host message all_files amend
                  repository_path w B)
        as [St|(p & w1 & t1 & r & w2 & d & S & _ & E & _)].
      * rewrite (stopped_runs St). simpl; lia.
      * rewrite E. unfold trace_of; simpl.
        erewrite runs_after_checks by exact S. simpl; lia.
  - destruct (git_status_inv host repository_path w)
      as [St|(p & w1 & t1 & r & w2 & S & _ & E)].
    + rewrite (stopped_runs St). simpl; lia.
    + rewrite E. unfold trace_of; simpl.
      erewrite runs_after_checks by exact S. simpl; lia.
  - intros b.
    destruct (git_push_given_inv host remote b force set_upstream
                repository_path w)
      as [St|(p & w1 & t1 & r & w2 & d & S & _ & E & _)].
    + rewrite (stopped_runs St). simpl; lia.
    + rewrite E. unfold trace_of; simpl.
      erewrite runs_after_checks by exact S. simpl; lia.
  - cbv zeta.
    destruct (git_push_discovery_inv host remote force set_upstream
                repository_path w)
      as [St|[(p & w1 & t1 & r0 & w2 & S & _ & D & E)
             |(p & w1 & t1 & r0 & w2 & b & r & w3 & d
               & S & _ & D & _ & E & _)]].
    + rewrite (stopped_runs St). split; [left; reflexivity|].
      intros p result rest H. discriminate.
    + rewrite E. unfold trace_of, result_of; simpl.
      erewrite runs_after_checks by exact S. simpl.
      split; [right; exists p; left; reflexivity|].
      intros p' result rest H. injection H as _ -> <-.
      simpl in *. split.
      * intros Z _. rewrite Z. auto.
      * intros Z. apply Z.eqb_neq in Z. rewrite Z. auto.
    + rewrite E. unfold trace_of, result_of; simpl.
      erewrite runs_after_checks by exact S. simpl.
      split.
      * right; exists p; right; exists b. split; [|reflexivity].
        destruct r0 as [result0| |]; simpl in D; try discriminate.
        destruct (returncode result0 =? 0)%Z; try discriminate.
        destruct (strip (stdout result0)); [discriminate|].
        injection D as <-. discriminate.
      * intros p' result rest H. injection H as _ -> <-.
        simpl in D. split.
        -- intros Z N. rewrite Z, N in D. discriminate.
        -- intros Z. apply Z.eqb_neq in Z. rewrite Z in D. discriminate.
Qed.

(** C6.  The push invocation of [git_push] is composed of the program and
    subcommand, the force flag when [force] is set, the upstream flag when
    [set_upstream] is set, then the remote and the branch: with both flags
    the force flag comes before the upstream flag and the remote and the
    branch are the last two tokens; without [set_upstream] the remote and
    the branch follow the subcommand, or the force flag when it is there.
    The branch is the one given, or else the one discovered.  That command
    is spawned, with 120 seconds: alone when the checks pass and a branch
    is given, after the discovery when the checks pass and the discovery
    ends with exit code 0 and a name. *)
Theorem push_argument_order
    remote branch force set_upstream repository_path w :
  let out := git_push host remote branch force set_upstream
               repository_path w in
  (forall c r,
      In (c, r) (runs (trace_of out)) ->
      timeout c = 120%N ->
      exists b,
        (forall given, branch = Some given -> b = given)
        /\ (branch = None ->
            exists r0,
              discovered r0 = Some b
              /\ In (discovery (cwd c), r0) (runs (trace_of out)))
        /\ argv c
           = [lit "git"; lit "push"]
               ++ (if force then [lit "--force"] else [])
               ++ (if set_upstream then [lit "-u"] else [])
               ++ [remote; b]
        /\ (force = true -> set_upstream = true ->
            argv c
            = [lit "git"; lit "push"; lit "--force"; lit "-u"; remote; b])
        /\ (set_upstream = false ->
            argv c
            = [lit "git"; lit "push"]
                ++ (if force then [lit "--force"] else []) ++ [remote; b]))
  /\ (forall p w1 t1,
      set_working_directory host repository_path w = (Normal p, w1, t1) ->
      (forall b,
          branch = Some b ->
          spawned (trace_of out)
          = [mkCommand
               ([lit "git"; lit "push"]
                  ++ (if force then [lit "--force"] else [])
                  ++ (if set_upstream then [lit "-u"] else [])
                  ++ [remote; b]) p 120])
      /\ (forall result w2,
          branch = None ->
          subprocess_run host (discovery p) w1 = (Completed result, w2) ->
          returncode result = 0%Z -> strip (stdout result) <> [] ->
          spawned (trace_of out)
          = [discovery p;
             mkCommand
               ([lit "git"; lit "push"]
                  ++ (if force then [lit "--force"] else [])
                  ++ (if set_upstream then [lit "-u"] else [])
                  ++ [remote; strip (stdout result)]) p 120])).
Proof.
  intros out. unfold out. clear out. split.
  2:{ intros p w1 t1 S. split.
      - intros b ->. eapply git_push_given_spawned; eassumption.
      - intros result w2 -> R0 Z N.
        eapply git_push_found_spawned; eassumption. }
  intros c r H T.
  assert (K : forall b,
    argv c = push_command remote b force set_upstream ->
    argv c
    = [lit "git"; lit "push"]
        ++ (if force then [lit "--force"] else [])
        ++ (if set_upstream then [lit "-u"] else [])
        ++ [remote; b]
    /\ (force = true -> set_upstream = true ->
        argv c = [lit "git"; lit "push"; lit "--force"; lit "-u"; remote; b])
    /\ (set_upstream = false ->
        argv c
        = [lit "git"; lit "push"]
            ++ (if force then [lit "--force"] else []) ++ [remote; b])).
  { intros b ->. unfold push_command. repeat split.
    - intros -> ->. reflexivity.
    - intros ->. reflexivity. }
  destruct branch as [given|].
  - destruct (git_push_given_inv host remote given force set_upstream
                repository_path w)
      as [St|(p & w1 & t1 & r' & w2 & d & S & _ & E & _)].
    + rewrite (stopped_runs St) in H. destruct H.
    + rewrite E in *. ran H. exists given.
      split; [intros g G; congruence|].
      split; [discriminate|]. apply K. reflexivity.
  - destruct (git_push_discovery_inv host remote force set_upstream
                repository_path w)
      as [St|[(p & w1 & t1 & r0 & w2 & S & _ & D & E)
             |(p & w1 & t1 & r0 & w2 & b & r' & w3 & d
               & S & _ & D & _ & E & _)]].
    + rewrite (stopped_runs St) in H. destruct H.
    + rewrite E in *. ran H. discriminate.
    + rewrite E in *.
      unfold trace_of in *; simpl snd in *.
      erewrite runs_after_checks in * by exact S. simpl in H.
      destruct H as [H|[H|[]]]; injection H as <- ->; [discriminate|].
      exists b. split; [discriminate|].
      split; [|apply K; reflexivity].
      intros _. exists r0. split; [exact D|]. simpl. auto.
Qed.

(** C7.  [git_add] takes the first of [interactive], [patch], [all_files],
    [files] that is set and ignores the rest: the command it runs is
    [git add] followed by [--interactive] alone, else [--patch] alone, else
    [.] alone, else the whitespace-separated tokens of [files], each its
    own argument, in order.  With [interactive] set the command holds
    [--interactive] and not [a.txt], whatever [files] is.  When the checks
    pass and one of the four is set, that command is the one process
    spawned, with 30 seconds. *)
Theorem add_flag_policy
    files all_files interactive patch repository_path w :
  let out := git_add host files all_files interactive patch
               repository_path w in
  let cmd :=
    [lit "git"; lit "add"]
      ++ (if interactive then [lit "--interactive"]
          else if patch then [lit "--patch"]
          else if all_files then [lit "."]
          else match files with
               | Some f => split (strip f)
               | None => []
               end) in
  (forall c r,
      In (c, r) (runs (trace_of out)) ->
      argv c = cmd
      /\ (interactive = true ->
          argv c = [lit "git"; lit "add"; lit "--interactive"]
          /\ In (lit "--interactive") (argv c)
          /\ ~ In (lit "a.txt") (argv c)))
  /\ (forall p w1 t1,
      set_working_directory host repository_path w = (Normal p, w1, t1) ->
      interactive = true \/ patch = true \/ all_files = true
      \/ (exists f, files = Some f /\ f <> []) ->
      spawned (trace_of out) = [mkCommand cmd p 30])
  /\ (forall f,
      files = Some f ->
      Forall (fun tok =>
                tok <> []
                /\ forallb (fun ch => negb (isspace ch)) tok = true)
             (split (strip f))
      /\ List.concat (split (strip f))
         = filter (fun ch => negb (isspace ch)) f).
Proof.
  intros out cmd.
  assert (C : forall cmd', add_command files all_files interactive patch
                           = Some cmd' -> cmd' = cmd).
  { unfold add_command, cmd. intros cmd'.
    destruct interactive; [intros H; injection H as <-; reflexivity|].
    destruct patch; [intros H; injection H as <-; reflexivity|].
    destruct all_files; [intros H; injection H as <-; reflexivity|].
    destruct files as [[|ch f]|]; simpl; try discriminate.
    intros H; injection H as <-; reflexivity. }
  split; [|split].
  - intros c r H.
    destruct (git_add_inv host files all_files interactive patch
                repository_path w)
      as [St|[(p & w1 & t1 & S & _ & E)
             |(p & w1 & t1 & cmd' & r' & w2 & d & S & A & _ & E & _)]];
      fold out in St || fold out in E.
    + rewrite (stopped_runs St) in H. destruct H.
    + rewrite E in H. unfold trace_of in H; simpl in H.
      apply set_working_directory_quiet in S. destruct S as [S _].
      rewrite S in H. destruct H.
    + rewrite E in *. ran H. split; [apply C; exact A|].
      intros I. rewrite (C _ A). unfold cmd. rewrite I.
      split; [reflexivity|]. split; [simpl; auto|].
      simpl. intros [X|[X|[X|[]]]]; vm_compute in X; discriminate.
  - intros p w1 t1 S Sel.
    destruct (add_command files all_files interactive patch)
      as [cmd'|] eqn:A.
    + destruct (subprocess_run host (mkCommand cmd' p 30) w1)
        as [r w2] eqn:R.
      destruct (@git_add_resolved W host _ _ _ _ _ _ _ _ _ _ _ _ S A R)
        as [d [E _]].
      unfold out, spawned. rewrite E. unfold trace_of; simpl.
      erewrite runs_after_checks by exact S. simpl.
      rewrite (C _ eq_refl). reflexivity.
    + exfalso. unfold add_command in A.
      destruct Sel as [->|[->|[->|[f [-> F]]]]];
        repeat match type of A with
               | (if ?b then _ else _) = _ => destruct b
               end; try discriminate.
      destruct f; [contradiction | discriminate].
  - intros f _. apply files_tokens.
Qed.

(** C8.  A [git_commit] call with [amend] and [all_files] runs
    [git commit --amend -a -m message]: both flags come right after the
    program and the subcommand, the amend flag first, and the message is
    the one token after [-m], as given.  When the message is not blank and
    the checks pass, that command is the one process spawned. *)
Theorem commit_flags message repository_path w :
  let out := git_commit host message true true repository_path w in
  let cmd := [lit "git"; lit "commit"; lit "--amend"; lit "-a";
              lit "-m"; message] in
  (forall c r, In (c, r) (runs (trace_of out)) -> argv c = cmd)
  /\ (blank message = false ->
      forall p w1 t1,
        set_working_directory host repository_path w = (Normal p, w1, t1) ->
        spawned (trace_of out) = [mkCommand cmd p 30]).
Proof.
  intros out cmd. split.
  - intros c r H. destruct (blank message) eqn:B.
    + unfold out in H. rewrite git_commit_blank in H by exact B.
      destruct H.
    + destruct (git_commit_inv host message true true repository_path w B)
        as [St|(p & w1 & t1 & r' & w2 & d & S & _ & E & _)];
        fold out in St || fold out in E.
      * rewrite (stopped_runs St) in H. destruct H.
      * rewrite E in *. ran H. reflexivity.
  - intros B p w1 t1 S.
    destruct (subprocess_run host
                (mkCommand (commit_command message true true) p 30) w1)
      as [r w2] eqn:R.
    destruct (@git_commit_resolved W host _ _ _ _ _ _ _ _ _ _ B S R)
      as [d [E _]].
    unfold out, spawned. rewrite E. unfold trace_of; simpl.
    erewrite runs_after_checks by exact S. reflexivity.
Qed.


End Claims.

Lemma commit_empty_message_witness :
  blank (lit "   ") = true
  /\ git_commit (mock disk) (lit "   ") true true (Some (lit "/nowhere")) []
     = (EmptyMessage, [], []).
Proof.
  split; [reflexivity|].
  apply (commit_empty_message (mock disk)). reflexivity.
Defined.

Lemma resolution_errors_counterexample :
  existsb (str_eqb (lit "/nowhere")) disk = false
  /\ result_of (git_commit (mock disk) (lit "") false false
                  (Some (lit "/nowhere")) [exit0 []])
     = EmptyMessage
  /\ EmptyMessage <> PathNotFound (lit "/nowhere").
Proof.
  split; [reflexivity|]. split; [reflexivity|].
  intros H. apply (f_equal shape) in H. vm_compute in H. discriminate.
Qed.

Lemma resolution_errors_witness :
  git_status (mock disk) (Some (lit "/nowhere")) []
  = (PathNotFound (lit "/nowhere"), [],
     [EvResolve (lit "/nowhere") (Ok (mkPath (lit "/nowhere")));
      EvExists (mkPath (lit "/nowhere")) (Ok false)])
  /\ git_push (mock disk) (lit "origin") None false false
       (Some (lit "/tmp")) []
     = (NotARepository (mkPath (lit "/tmp")), [],
        [EvResolve (lit "/tmp") (Ok (mkPath (lit "/tmp")));
         EvExists (mkPath (lit "/tmp")) (Ok true);
         EvExists (mkPath (lit "/tmp/.git")) (Ok false)]).
Proof.
  assert (N1 : lit "/nowhere" <> []) by (vm_compute; discriminate).
  assert (N2 : lit "/tmp" <> []) by (vm_compute; discriminate).
  split.
  - destruct (@resolution_errors _ (mock disk) None false false false
                (lit "fix") false (lit "origin") None false false
                (Some (lit "/nowhere")) (lit "/nowhere") []
                (mkPath (lit "/nowhere")) [] []
                eq_refl N1 eq_refl eq_refl) as [A _].
    destruct (A eq_refl) as (_ & _ & _ & E & _). exact E.
  - destruct (@resolution_errors _ (mock disk) None false false false
                (lit "fix") false (lit "origin") None false false
                (Some (lit "/tmp")) (lit "/tmp") []
                (mkPath (lit "/tmp")) [] []
                eq_refl N2 eq_refl eq_refl) as [_ A].
    destruct (A [] eq_refl eq_refl) as (_ & _ & E & _). exact E.
Defined.

Lemma missing_target_counterexample :
  (* nothing to stage, and the current directory is no repository *)
  result_of (git_add (mock [lit "/work"]) None false false false None [])
  = NotARepository work
  /\ NotARepository work <> MissingTarget
  (* whitespace-only [files] in a repository *)
  /\ split (strip (lit "  ")) = []
  /\ spawned (trace_of (git_add (mock disk) (Some (lit "  "))
                          false false false None [exit0 []]))
     = [mkCommand [lit "git"; lit "add"] work 30]
  /\ get (lit "status")
       (result_of (git_add (mock disk) (Some (lit "  "))
                     false false false None [exit0 []]))
     = Some (lit "success").
Proof.
  split; [reflexivity|]. split.
  - intros H. apply (f_equal shape) in H. vm_compute in H. discriminate.
  - repeat split; reflexivity.
Qed.

Lemma missing_target_witness :
  let out := git_add (mock disk) (Some (lit "")) false false false None [] in
  spawned (trace_of out) = []
  /\ out = (MissingTarget, [],
            [EvCwd (Ok work); EvExists (mkPath (lit "/work/.git")) (Ok true)]).
Proof.
  intros out.
  destruct (@missing_target _ (mock disk) (Some (lit "")) None []
              (or_intror eq_refl)) as [N M].
  split; [exact N|].
  apply (M work []). reflexivity.
Defined.

Lemma timeout_results_counterexample :
  let out := git_status (mock disk) None [TimedOut] in
  runs (trace_of out)
  = [(mkCommand [lit "git"; lit "status"; lit "--porcelain"] work 10,
      TimedOut)]
  /\ get (lit "message") (result_of out)
     = Some (lit "Git status command timed out")
  /\ existsb isdigit (lit "Git status command timed out") = false
  /\ contains (lit "second") (lit "Git status command timed out") = false.
Proof. repeat split; reflexivity. Qed.

Lemma timeout_results_witness :
  result_of (git_add (mock disk) (Some (lit "a.txt")) false false false
               None [TimedOut]) = Timeout Add
  /\ result_of (git_commit (mock disk) (lit "fix") false false
                  None [TimedOut]) = Timeout Commit
  /\ result_of (git_push (mock disk) (lit "origin") (Some (lit "main"))
                  false false None [TimedOut]) = Timeout Push
  /\ result_of (git_status (mock disk) None [TimedOut]) = Timeout Status.
Proof.
  destruct (@timeout_results _ (mock disk) (Some (lit "a.txt")) false false
              false (lit "fix") false (lit "origin") (Some (lit "main"))
              false false None [TimedOut]) as (A & C & P & S & _).
  split; [|split; [|split]].
  - apply (A (mkCommand [lit "git"; lit "add"; lit "a.txt"] work 30)).
    left; reflexivity.
  - apply (C (mkCommand [lit "git"; lit "commit"; lit "-m"; lit "fix"]
                work 30)).
    left; reflexivity.
  - apply (P (mkCommand [lit "git"; lit "push"; lit "origin"; lit "main"]
                work 120)); [left|]; reflexivity.
  - apply (S (mkCommand [lit "git"; lit "status"; lit "--porcelain"]
                work 10)).
    left; reflexivity.
Defined.

(** The one [except] of [git_push] also catches the timeout of the
    discovery, which had 10 seconds. *)
Example git_push_discovery_timeout :
  let out := git_push (mock disk) (lit "origin") None false false None
               [TimedOut] in
  runs (trace_of out) = [(discovery work, TimedOut)]
  /\ timeout (discovery work) = 10%N
  /\ get (lit "message") (result_of out)
     = Some (lit "Git push command timed out after 2 minutes").
Proof. repeat split; reflexivity. Qed.

Lemma one_process_per_call_witness :
  result_of (git_push (mock disk) (lit "origin") None false false None
               [exit0 (lit "  ")])
  = NoCurrentBranch
  /\ result_of (git_push (mock disk) (lit "origin") None false false None
                  [Completed (mkCompleted 128 []
                                (lit "fatal: not a git repository "))])
     = BranchQueryFailed (lit "fatal: not a git repository")
  /\ spawned (trace_of (git_push (mock disk) (lit "origin") None false false
                          None [exit0 (lit "main "); exit0 []]))
     = [discovery work;
        mkCommand [lit "git"; lit "push"; lit "origin"; lit "main"] work 120].
Proof.
  split; [|split].
  - destruct (@one_process_per_call _ (mock disk) None false false false
                (lit "fix") false (lit "origin") false false None
                [exit0 (lit "  ")]) as [_ [_ [D _]]].
    destruct (D work (mkCompleted 0 (lit "  ") []) [] eq_refl) as [Z _].
    apply Z; reflexivity.
  - destruct (@one_process_per_call _ (mock disk) None false false false
                (lit "fix") false (lit "origin") false false None
                [Completed (mkCompleted 128 []
                              (lit "fatal: not a git repository "))])
      as [_ [_ [D _]]].
    destruct (D work (mkCompleted 128 [] (lit "fatal: not a git repository "))
                [] eq_refl) as [_ N].
    apply N. discriminate.
  - destruct (@one_process_per_call _ (mock disk) None false false false
                (lit "fix") false (lit "origin") false false None
                [exit0 (lit "main "); exit0 []]) as [_ [_ [_ P]]].
    destruct (P work [exit0 (lit "main "); exit0 []]
                [EvCwd (Ok work);
                 EvExists (mkPath (lit "/work/.git")) (Ok true)] eq_refl)
      as (_ & F & _).
    apply (F (mkCompleted 0 (lit "main ") []) [exit0 []] eq_refl eq_refl).
    vm_compute. discriminate.
Defined.

Lemma push_argument_order_witness :
  spawned (trace_of (git_push (mock disk) (lit "origin") (Some (lit "main"))
                       true true None [exit0 []]))
  = [mkCommand [lit "git"; lit "push"; lit "--force"; lit "-u";
                lit "origin"; lit "main"] work 120]
  /\ exists b,
       b = lit "main"
       /\ [lit "git"; lit "push"; lit "--force"; lit "-u"; lit "origin";
           lit "main"]
          = [lit "git"; lit "push"; lit "--force"; lit "-u"; lit "origin"; b].
Proof.
  destruct (@push_argument_order _ (mock disk) (lit "origin")
              (Some (lit "main")) true true None [exit0 []]) as [A P].
  split.
  - destruct (P work [exit0 []]
                [EvCwd (Ok work);
                 EvExists (mkPath (lit "/work/.git")) (Ok true)] eq_refl)
      as [G _].
    exact (G (lit "main") eq_refl).
  - destruct (A (mkCommand [lit "git"; lit "push"; lit "--force"; lit "-u";
                            lit "origin"; lit "main"] work 120)
                (exit0 []) (or_introl eq_refl) eq_refl)
      as (b & G & _ & _ & FU & _).
    exists b. split; [apply G; reflexivity | apply FU; reflexivity].
Defined.

Lemma add_flag_policy_witness :
  (In (lit "--interactive") [lit "git"; lit "add"; lit "--interactive"]
   /\ ~ In (lit "a.txt") [lit "git"; lit "add"; lit "--interactive"])
  /\ spawned (trace_of (git_add (mock disk) (Some (lit "a.txt b.txt"))
                          false false false None [exit0 []]))
     = [mkCommand [lit "git"; lit "add"; lit "a.txt"; lit "b.txt"] work 30].
Proof.
  split.
  - destruct (@add_flag_policy _ (mock disk) (Some (lit "a.txt")) false true
                false None [exit0 []]) as [P _].
    destruct (P (mkCommand [lit "git"; lit "add"; lit "--interactive"]
                   work 30) (exit0 []) (or_introl eq_refl)) as [_ I].
    destruct (I eq_refl) as (_ & I1 & I2). split; assumption.
  - destruct (@add_flag_policy _ (mock disk) (Some (lit "a.txt b.txt"))
                false false false None [exit0 []]) as [_ [P _]].
    apply (P work [exit0 []]
             [EvCwd (Ok work); EvExists (mkPath (lit "/work/.git")) (Ok true)]
             eq_refl).
    right; right; right. exists (lit "a.txt b.txt").
    split; [reflexivity | vm_compute; discriminate].
Defined.

Lemma commit_flags_witness :
  spawned (trace_of (git_commit (mock disk) (lit "fix  the   bug") true true
                       None [exit0 []]))
  = [mkCommand [lit "git"; lit "commit"; lit "--amend"; lit "-a"; lit "-m";
                lit "fix  the   bug"] work 30].
Proof.
  destruct (@commit_flags _ (mock disk) (lit "fix  the   bug") None
              [exit0 []]) as [_ P].
  apply (P eq_refl work [exit0 []]
           [EvCwd (Ok work); EvExists (mkPath (lit "/work/.git")) (Ok true)]
           eq_refl).
Defined.


Lemma empty_path_is_omitted_witness :
  git_status (mock disk) (Some (lit "")) [exit0 []]
  = git_status (mock disk) None [exit0 []]
  /\ asks_cwd_first (git_commit (mock disk) (lit "fix") false false
                       (Some (lit "")) [exit0 []]).
Proof.
  destruct (@empty_path_is_omitted _ (mock disk) None false false false
              (lit "fix") false (lit "origin") None false false [exit0 []])
    as (_ & (_ & C & _) & _ & (S & _)).
  split; [exact S | apply C; reflexivity].
Defined.

(* ===================================================================== *)
(** ** The results in full *)
(* ===================================================================== *)

Section Checks.
Context {W : Type} (host : Host W).

Local Notation "p / name" := (Path_truediv host p name).

(** What the trace of the opening checks holds when they pass. *)
Lemma checks_passed repository_path w p w1 t1 :
  set_working_directory host repository_path w = (Normal p, w1, t1) ->
  In (EvExists (p / lit ".git") (Ok true)) t1
  /\ (forall ev, In ev t1 -> failure_of ev = None)
  /\ match truthy_opt repository_path with
     | Some given => In (EvResolve given (Ok p)) t1
     | None => In (EvCwd (Ok p)) t1
     end.
Proof.
  unfold set_working_directory, bind, resolve, getcwd, exists_, ret, return_.
  destruct (truthy_opt repository_path) as [given|].
  - destruct (Path_resolve host given w) as [[rp|e] wa]; simpl;
      [|discriminate].
    destruct (Path_exists host rp wa) as [[[|]|e] wb]; simpl;
      try discriminate.
    destruct (Path_exists host (rp / lit ".git") wb) as [[[|]|e] wc]; simpl;
      try discriminate.
    intros H; injection H as <- <- <-. simpl.
    repeat split; auto.
    intros ev [<-|[<-|[<-|[]]]]; reflexivity.
  - destruct (Path_cwd host w) as [[rp|e] wa]; simpl; [|discriminate].
    destruct (Path_exists host (rp / lit ".git") wa) as [[[|]|e] wc]; simpl;
      try discriminate.
    intros H; injection H as <- <- <-. simpl.
    repeat split; auto.
    intros ev [<-|[<-|[]]]; reflexivity.
Qed.

(** What the checks return when they reject the call. *)
Lemma checks_rejected repository_path w d w1 t1 :
  set_working_directory host repository_path w = (Returned d, w1, t1) ->
  ((exists given,
       truthy_opt repository_path = Some given /\ d = PathNotFound given)
   \/ exists p, d = NotARepository p)
  /\ forall ev, In ev t1 -> failure_of ev = None.
Proof.
  unfold set_working_directory, bind, resolve, getcwd, exists_, ret, return_.
  destruct (truthy_opt repository_path) as [given|].
  - destruct (Path_resolve host given w) as [[rp|e] wa]; simpl;
      [|discriminate].
    destruct (Path_exists host rp wa) as [[[|]|e] wb]; simpl;
      try discriminate.
    + destruct (Path_exists host (rp / lit ".git") wb) as [[[|]|e] wc];
        simpl; try discriminate.
      intros H; injection H; intros <- <- <-. split; [right; exists rp; reflexivity|].
      simpl; intros ev [<-|[<-|[<-|[]]]]; reflexivity.
    + intros H; injection H; intros <- <- <-. split; [left; exists given; split; reflexivity|].
      simpl; intros ev [<-|[<-|[]]]; reflexivity.
  - destruct (Path_cwd host w) as [[rp|e] wa]; simpl; [|discriminate].
    destruct (Path_exists host (rp / lit ".git") wa) as [[[|]|e] wc]; simpl;
      try discriminate.
    intros H; injection H; intros <- <- <-. split; [right; exists rp; reflexivity|].
    simpl; intros ev [<-|[<-|[]]]; reflexivity.
Qed.

(** When [pathlib] raises, the exception is the only one in the trace. *)
Lemma checks_raised repository_path w str_e w1 t1 :
  set_working_directory host repository_path w
  = (Raised (Exception str_e), w1, t1) ->
  forall ev str_e', In ev t1 -> failure_of ev = Some str_e' -> str_e' = str_e.
Proof.
  unfold set_working_directory, bind, resolve, getcwd, exists_, ret, return_.
  destruct (truthy_opt repository_path) as [given|].
  - destruct (Path_resolve host given w) as [[rp|e] wa]; simpl.
    + destruct (Path_exists host rp wa) as [[[|]|e] wb]; simpl;
        try discriminate.
      * destruct (Path_exists host (rp / lit ".git") wb) as [[[|]|e] wc];
          simpl; try discriminate.
        intros H; injection H as <- <- <-.
        simpl In; intros ev e' [<-|[<-|[<-|[]]]]; simpl; congruence.
      * intros H; injection H as <- <- <-.
        simpl In; intros ev e' [<-|[<-|[]]]; simpl; congruence.
    + intros H; injection H as <- <- <-.
      simpl In; intros ev e' [<-|[]]; simpl; congruence.
  - destruct (Path_cwd host w) as [[rp|e] wa]; simpl.
    + destruct (Path_exists host (rp / lit ".git") wa) as [[[|]|e] wc];
        simpl; try discriminate.
      intros H; injection H as <- <- <-.
      simpl In; intros ev e' [<-|[<-|[]]]; simpl; congruence.
    + intros H; injection H as <- <- <-.
      simpl In; intros ev e' [<-|[]]; simpl; congruence.
Qed.

(** The handlers after their checks, with the dictionary in full. *)
Lemma git_add_exact files all_files interactive patch
    repository_path w p w1 t1 cmd r w2 :
  set_working_directory host repository_path w = (Normal p, w1, t1) ->
  add_command files all_files interactive patch = Some cmd ->
  subprocess_run host (mkCommand cmd p 30) w1 = (r, w2) ->
  git_add host files all_files interactive patch repository_path w
  = (shaped Add (add_result cmd p) r, w2,
     t1 ++ [EvRun (mkCommand cmd p 30) r]).
Proof.
  intros S C R. unfold add_command in C.
  unfold git_add. rewrite (try_bind_normal _ _ _ _ _ S).
  destruct interactive, patch, all_files; simpl in C;
    try (destruct (truthy_opt files) as [f|] eqn:E; [|discriminate]);
    injection C as <-; rest; try rewrite E; simpl; rewrite R;
    (destruct r as [result| |str_e]; simpl; auto;
     unfold add_result; destruct (returncode result =? 0)%Z; reflexivity).
Qed.

Lemma git_commit_exact message all_files amend
    repository_path w p w1 t1 r w2 :
  let cmd := commit_command message all_files amend in
  blank message = false ->
  set_working_directory host repository_path w = (Normal p, w1, t1) ->
  subprocess_run host (mkCommand cmd p 30) w1 = (r, w2) ->
  git_commit host message all_files amend repository_path w
  = (shaped Commit (commit_result cmd p) r, w2,
     t1 ++ [EvRun (mkCommand cmd p 30) r]).
Proof.
  intros cmd B S R. unfold git_commit.
  rewrite (truthy_strip _ B); simpl.
  rewrite (try_bind_normal _ _ _ _ _ S).
  subst cmd. unfold commit_command, insert in *.
  destruct amend, all_files; simpl in *; rest; rewrite R;
    (destruct r as [result| |str_e]; simpl; auto;
     unfold commit_result; destruct (returncode result =? 0)%Z; reflexivity).
Qed.

Lemma git_push_given_exact remote b force set_upstream
    repository_path w p w1 t1 r w2 :
  let cmd := push_command remote b force set_upstream in
  set_working_directory host repository_path w = (Normal p, w1, t1) ->
  subprocess_run host (mkCommand cmd p 120) w1 = (r, w2) ->
  git_push host remote (Some b) force set_upstream repository_path w
  = (shaped Push (push_result remote b cmd p) r, w2,
     t1 ++ [EvRun (mkCommand cmd p 120) r]).
Proof.
  intros cmd S R. unfold git_push.
  rewrite (try_bind_normal _ _ _ _ _ S).
  subst cmd. unfold push_command, insert in *.
  destruct force, set_upstream; simpl in *; rest; rewrite R;
    (destruct r as [result| |str_e]; simpl; auto;
     unfold push_result; destruct (returncode result =? 0)%Z; reflexivity).
Qed.

Lemma git_push_discovered_exact remote force set_upstream
    repository_path w p w1 t1 r0 w2 b r w3 :
  let cmd := push_command remote b force set_upstream in
  set_working_directory host repository_path w = (Normal p, w1, t1) ->
  subprocess_run host (discovery p) w1 = (r0, w2) ->
  discovered r0 = Some b ->
  subprocess_run host (mkCommand cmd p 120) w2 = (r, w3) ->
  git_push host remote None force set_upstream repository_path w
  = (shaped Push (push_result remote b cmd p) r, w3,
     t1 ++ [EvRun (discovery p) r0; EvRun (mkCommand cmd p 120) r]).
Proof.
  intros cmd S R0 D R. unfold git_push.
  rewrite (try_bind_normal _ _ _ _ _ S). rest.
  fold (discovery p). rewrite R0.
  destruct r0 as [result0| |str_e0]; simpl in D; try discriminate.
  destruct (returncode result0 =? 0)%Z; try discriminate.
  destruct (strip (stdout result0)) as [|ch br] eqn:Eb; try discriminate.
  injection D as <-. subst cmd. unfold push_command, insert in *.
  destruct force, set_upstream; simpl in *; rewrite R;
    (destruct r as [result| |str_e]; simpl; auto;
     unfold push_result; destruct (returncode result =? 0)%Z; reflexivity).
Qed.

End Checks.

Section Verdicts.
Context {W : Type} (host : Host W).

Local Notation "p / name" := (Path_truediv host p name).

Lemma error_is_not_success : Some (lit "error") <> Some (lit "success").
Proof. vm_compute. discriminate. Qed.

Lemma not_succeeded_without_runs limit t : runs t = [] -> ~ succeeded limit t.
Proof. intros E (c & result & I & _). rewrite E in I. destruct I. Qed.

(** A call that ran nothing and met no exception, and returns an error. *)
Lemma no_run_verdict repository_path limit limits d (w1 : W) t :
  get (lit "status") d = Some (lit "error") ->
  runs t = [] ->
  (forall ev, In ev t -> failure_of ev = None) ->
  status_by_exit limit (d, w1, t)
  /\ failures_reported (d, w1, t)
  /\ runs_in_repository host repository_path limits (d, w1, t).
Proof.
  intros St R F.
  unfold status_by_exit, failures_reported, runs_in_repository,
    result_of, trace_of; simpl.
  split; [split; [auto|]|split].
  - rewrite St. split.
    + intros H. destruct (error_is_not_success H).
    + intros H. destruct (not_succeeded_without_runs R H).
  - intros ev e I X. rewrite (F ev I) in X. discriminate.
  - intros c r I. rewrite R in I. destruct I.
Qed.

Lemma stopped_verdict repository_path w limit limits out :
  stopped host repository_path w out ->
  status_by_exit limit out
  /\ failures_reported out
  /\ runs_in_repository host repository_path limits out.
Proof.
  intros [d w1 t1 S|str_e w1 t1 S].
  - destruct (checks_rejected host _ _ S) as [K F].
    apply no_run_verdict; auto.
    + destruct K as [(given & _ & ->)|(p & ->)]; reflexivity.
    + apply (set_working_directory_quiet host _ _ S).
  - pose proof (checks_raised host _ _ S) as F.
    destruct (set_working_directory_quiet host _ _ S) as [R _].
    unfold status_by_exit, failures_reported, runs_in_repository,
      result_of, trace_of; simpl.
    split; [split; [right; reflexivity|]|split].
    + split.
      * intros H. apply error_is_not_success in H. destruct H.
      * intros H. destruct (not_succeeded_without_runs R H).
    + intros ev e I X. rewrite (F ev e I X). reflexivity.
    + intros c r I. rewrite R in I. destruct I.
Qed.

Lemma timeout_status tool :
  get (lit "status") (Timeout tool) = Some (lit "error").
Proof. destruct tool; reflexivity. Qed.

(** A call whose checks passed and that ran one process. *)
Lemma ran_once_verdict repository_path w p w1 t1 c r (w2 : W)
    tool completed limits :
  set_working_directory host repository_path w = (Normal p, w1, t1) ->
  cwd c = p -> hd [] (argv c) = lit "git" -> In (timeout c) limits ->
  (forall result,
      get (lit "status") (completed result)
      = Some (if (returncode result =? 0)%Z
              then lit "success" else lit "error")) ->
  let out := (shaped tool completed r, w2, t1 ++ [EvRun c r]) in
  status_by_exit (timeout c) out
  /\ failures_reported out
  /\ runs_in_repository host repository_path limits out.
Proof.
  intros S Cw Hd Li St out.
  destruct (checks_passed host _ _ S) as (G & F & Wd).
  assert (R : runs (t1 ++ [EvRun c r]) = [(c, r)]).
  { erewrite runs_after_checks by exact S. reflexivity. }
  unfold out, status_by_exit, failures_reported, runs_in_repository,
    result_of, trace_of; simpl fst; simpl snd.
  split; [|split].
  - unfold succeeded. rewrite R.
    destruct r as [result| |str_e]; cbn [shaped].
    + rewrite St. destruct (returncode result =? 0)%Z eqn:Z.
      * split; [auto|]. split; auto. intros _.
        exists c, result. apply Z.eqb_eq in Z. simpl; auto.
      * split; [auto|]. split.
        -- intros H. destruct (error_is_not_success H).
        -- intros (c' & result' & [H|[]] & _ & Z').
           injection H as <- <-. apply Z.eqb_neq in Z. contradiction.
    + rewrite timeout_status. split; [auto|]. split.
      * intros H. destruct (error_is_not_success H).
      * intros (c' & result' & [H|[]] & _). discriminate.
    + split; [right; reflexivity|]. split.
      * intros H. apply error_is_not_success in H. destruct H.
      * intros (c' & result' & [H|[]] & _). discriminate.
  - intros ev e I X. apply in_app_or in I. destruct I as [I|[<-|[]]].
    + rewrite (F ev I) in X. discriminate.
    + destruct r; simpl in X; try discriminate.
      injection X as ->. reflexivity.
  - intros c' r' I. rewrite R in I. destruct I as [I|[]].
    injection I as <- <-. rewrite Cw.
    repeat split; auto.
    + apply in_or_app; auto.
    + destruct (truthy_opt repository_path); apply in_or_app; auto.
Qed.

(** [git_push] when the discovery gives no branch. *)
Lemma discovery_stop_verdict repository_path w p w1 t1 r0 (w2 : W) :
  set_working_directory host repository_path w = (Normal p, w1, t1) ->
  discovered r0 = None ->
  let out := (discovery_result r0, w2, t1 ++ [EvRun (discovery p) r0]) in
  status_by_exit 120 out
  /\ failures_reported out
  /\ runs_in_repository host repository_path [10; 120]%N out.
Proof.
  intros S D out.
  destruct (checks_passed host _ _ S) as (G & F & Wd).
  assert (R : runs (t1 ++ [EvRun (discovery p) r0]) = [(discovery p, r0)]).
  { erewrite runs_after_checks by exact S. reflexivity. }
  unfold out, status_by_exit, failures_reported, runs_in_repository,
    result_of, trace_of; simpl fst; simpl snd.
  assert (E : get (lit "status") (discovery_result r0) = Some (lit "error")).
  { destruct r0 as [result| |str_e]; simpl; try reflexivity.
    destruct (returncode result =? 0)%Z; reflexivity. }
  split; [|split].
  - rewrite E. split; [auto|]. split.
    + intros H. destruct (error_is_not_success H).
    + unfold succeeded. rewrite R.
      intros (c' & result' & [H|[]] & T & _).
      injection H as <- _. discriminate.
  - intros ev e I X. apply in_app_or in I. destruct I as [I|[<-|[]]].
    + rewrite (F ev I) in X. discriminate.
    + destruct r0; simpl in X; try discriminate.
      injection X as ->. reflexivity.
  - intros c' r' I. rewrite R in I. destruct I as [I|[]].
    injection I as <- <-. simpl.
    repeat split; auto.
    + apply in_or_app; auto.
    + destruct (truthy_opt repository_path); apply in_or_app; auto.
Qed.

(** [git_push] when the discovery gives a branch and the push runs. *)
Lemma discovered_verdict repository_path w p w1 t1 r0 b cmd r (w3 : W)
    completed :
  set_working_directory host repository_path w = (Normal p, w1, t1) ->
  discovered r0 = Some b ->
  hd [] cmd = lit "git" ->
  (forall result,
      get (lit "status") (completed result)
      = Some (if (returncode result =? 0)%Z
              then lit "success" else lit "error")) ->
  let out :=
    (shaped Push completed r, w3,
     t1 ++ [EvRun (discovery p) r0; EvRun (mkCommand cmd p 120) r]) in
  status_by_exit 120 out
  /\ failures_reported out
  /\ runs_in_repository host repository_path [10; 120]%N out.
Proof.
  intros S D Hd St out.
  destruct (checks_passed host _ _ S) as (G & F & Wd).
  assert (R : runs (t1 ++ [EvRun (discovery p) r0;
                           EvRun (mkCommand cmd p 120) r])
              = [(discovery p, r0); (mkCommand cmd p 120, r)]).
  { erewrite runs_after_checks by exact S. reflexivity. }
  assert (F0 : failure_of (EvRun (discovery p) r0) = None).
  { destruct r0; simpl in *; auto. discriminate. }
  unfold out, status_by_exit, failures_reported, runs_in_repository,
    result_of, trace_of; simpl fst; simpl snd.
  split; [|split].
  - unfold succeeded. rewrite R.
    destruct r as [result| |str_e]; cbn [shaped].
    + rewrite St. destruct (returncode result =? 0)%Z eqn:Z.
      * split; [auto|]. split; auto. intros _.
        exists (mkCommand cmd p 120), result. apply Z.eqb_eq in Z.
        simpl; auto.
      * split; [auto|]. split.
        -- intros H. destruct (error_is_not_success H).
        -- intros (c' & result' & [H|[H|[]]] & T & Z').
           ++ injection H as <- _. discriminate.
           ++ injection H as _ <-. apply Z.eqb_neq in Z. contradiction.
    + split; [right; reflexivity|]. split.
      * intros H. apply error_is_not_success in H. destruct H.
      * intros (c' & result' & [H|[H|[]]] & T & _).
        -- injection H as <- _. discriminate.
        -- discriminate.
    + split; [right; reflexivity|]. split.
      * intros H. apply error_is_not_success in H. destruct H.
      * intros (c' & result' & [H|[H|[]]] & T & _).
        -- injection H as <- _. discriminate.
        -- discriminate.
  - intros ev e I X. apply in_app_or in I. destruct I as [I|[<-|[<-|[]]]].
    + rewrite (F ev I) in X. discriminate.
    + rewrite F0 in X. discriminate.
    + destruct r; simpl in X; try discriminate.
      injection X as ->. reflexivity.
  - intros c' r' I. rewrite R in I.
    destruct I as [I|[I|[]]]; injection I as <- <-; simpl;
      (repeat split; auto;
       [apply in_or_app; auto
       |destruct (truthy_opt repository_path); apply in_or_app; auto]).
Qed.

End Verdicts.

Section Cases.
Context {W : Type} (host : Host W).

Lemma git_add_cases files all_files interactive patch repository_path w :
  let out := git_add host files all_files interactive patch
               repository_path w in
  stopped host repository_path w out
  \/ (exists p w1 t1,
        set_working_directory host repository_path w = (Normal p, w1, t1)
        /\ add_command files all_files interactive patch = None
        /\ out = (MissingTarget, w1, t1))
  \/ (exists p w1 t1 cmd r w2,
        set_working_directory host repository_path w = (Normal p, w1, t1)
        /\ add_command files all_files interactive patch = Some cmd
        /\ out = (shaped Add (add_result cmd p) r, w2,
                  t1 ++ [EvRun (mkCommand cmd p 30) r])).
Proof.
  intros out.
  destruct (git_add_inv host files all_files interactive patch
              repository_path w)
    as [St|[M|(p & w1 & t1 & cmd & r & w2 & d & S & C & R & _)]]; auto.
  right; right. exists p, w1, t1, cmd, r, w2. repeat split; auto.
  eapply git_add_exact; eassumption.
Qed.

Lemma git_commit_cases message all_files amend repository_path w :
  blank message = false ->
  let out := git_commit host message all_files amend repository_path w in
  let cmd := commit_command message all_files amend in
  stopped host repository_path w out
  \/ (exists p w1 t1 r w2,
        set_working_directory host repository_path w = (Normal p, w1, t1)
        /\ out = (shaped Commit (commit_result cmd p) r, w2,
                  t1 ++ [EvRun (mkCommand cmd p 30) r])).
Proof.
  intros B out cmd.
  destruct (git_commit_inv host message all_files amend repository_path w B)
    as [St|(p & w1 & t1 & r & w2 & d & S & R & _)]; auto.
  right. exists p, w1, t1, r, w2. split; auto.
  eapply git_commit_exact; eassumption.
Qed.

Lemma git_push_given_cases remote b force set_upstream repository_path w :
  let out := git_push host remote (Some b) force set_upstream
               repository_path w in
  let cmd := push_command remote b force set_upstream in
  stopped host repository_path w out
  \/ (exists p w1 t1 r w2,
        set_working_directory host repository_path w = (Normal p, w1, t1)
        /\ out = (shaped Push (push_result remote b cmd p) r, w2,
                  t1 ++ [EvRun (mkCommand cmd p 120) r])).
Proof.
  intros out cmd.
  destruct (git_push_given_inv host remote b force set_upstream
              repository_path w)
    as [St|(p & w1 & t1 & r & w2 & d & S & R & _)]; auto.
  right. exists p, w1, t1, r, w2. split; auto.
  eapply git_push_given_exact; eassumption.
Qed.

Lemma git_push_discovery_cases remote force set_upstream repository_path w :
  let out := git_push host remote None force set_upstream
               repository_path w in
  stopped host repository_path w out
  \/ (exists p w1 t1 r0 w2,
        set_working_directory host repository_path w = (Normal p, w1, t1)
        /\ discovered r0 = None
        /\ out = (discovery_result r0, w2, t1 ++ [EvRun (discovery p) r0]))
  \/ (exists p w1 t1 r0 b r w3,
        let cmd := push_command remote b force set_upstream in
        set_working_directory host repository_path w = (Normal p, w1, t1)
        /\ discovered r0 = Some b
        /\ out = (shaped Push (push_result remote b cmd p) r, w3,
                  t1 ++ [EvRun (discovery p) r0;
                         EvRun (mkCommand cmd p 120) r])).
Proof.
  intros out.
  destruct (git_push_discovery_inv host remote force set_upstream
              repository_path w)
    as [St|[(p & w1 & t1 & r0 & w2 & S & R0 & D & E)
           |(p & w1 & t1 & r0 & w2 & b & r & w3 & d
             & S & R0 & D & R & _)]]; auto.
  - right; left. exists p, w1, t1, r0, w2. auto.
  - right; right. exists p, w1, t1, r0, b, r, w3. repeat split; auto.
    eapply git_push_discovered_exact; eassumption.
Qed.

Lemma add_command_head files all_files interactive patch cmd :
  add_command files all_files interactive patch = Some cmd ->
  hd [] cmd = lit "git".
Proof.
  unfold add_command.
  destruct interactive; [intros H; injection H as <-; reflexivity|].
  destruct patch; [intros H; injection H as <-; reflexivity|].
  destruct all_files; [intros H; injection H as <-; reflexivity|].
  destruct (truthy_opt files); [|discriminate].
  intros H; injection H as <-; reflexivity.
Qed.

Lemma add_result_status cmd p result :
  get (lit "status") (add_result cmd p result)
  = Some (if (returncode result =? 0)%Z then lit "success" else lit "error").
Proof.
  unfold add_result. destruct (returncode result =? 0)%Z; reflexivity.
Qed.

Lemma commit_result_status cmd p result :
  get (lit "status") (commit_result cmd p result)
  = Some (if (returncode result =? 0)%Z then lit "success" else lit "error").
Proof.
  unfold commit_result. destruct (returncode result =? 0)%Z; reflexivity.
Qed.

Lemma push_result_status remote b cmd p result :
  get (lit "status") (push_result remote b cmd p result)
  = Some (if (returncode result =? 0)%Z then lit "success" else lit "error").
Proof.
  unfold push_result. destruct (returncode result =? 0)%Z; reflexivity.
Qed.

Lemma status_result_status p result :
  get (lit "status") (status_result p result)
  = Some (if (returncode result =? 0)%Z then lit "success" else lit "error").
Proof.
  unfold status_result. destruct (returncode result =? 0)%Z; reflexivity.
Qed.

Lemma git_add_verdict files all_files interactive patch repository_path w :
  let out := git_add host files all_files interactive patch
               repository_path w in
  status_by_exit 30 out
  /\ failures_reported out
  /\ runs_in_repository host repository_path [30%N] out.
Proof.
  intros out.
  destruct (git_add_cases files all_files interactive patch
              repository_path w)
    as [St|[(p & w1 & t1 & S & C & E)
           |(p & w1 & t1 & cmd & r & w2 & S & C & E)]];
    fold out in St || fold out in E.
  - eapply stopped_verdict; eauto.
  - rewrite E. destruct (checks_passed host _ _ S) as (_ & F & _).
    apply no_run_verdict; auto.
    apply (set_working_directory_quiet host _ _ S).
  - rewrite E.
    apply (@ran_once_verdict W host _ _ _ _ _
             (mkCommand cmd p 30)
             r w2 Add
             (add_result cmd p) [30%N] S); simpl; auto.
    + eapply add_command_head; eauto.
    + apply add_result_status.
Qed.

Lemma git_commit_verdict message all_files amend repository_path w :
  let out := git_commit host message all_files amend repository_path w in
  status_by_exit 30 out
  /\ failures_reported out
  /\ runs_in_repository host repository_path [30%N] out.
Proof.
  intros out. destruct (blank message) eqn:B.
  - unfold out. rewrite git_commit_blank by exact B.
    apply no_run_verdict; auto. intros ev [].
  - destruct (git_commit_cases message all_files amend repository_path w B)
      as [St|(p & w1 & t1 & r & w2 & S & E)];
      fold out in St || fold out in E.
    + eapply stopped_verdict; eauto.
    + rewrite E.
      apply (@ran_once_verdict W host _ _ _ _ _
             (mkCommand (commit_command message all_files amend) p 30)
             r w2 Commit
               (commit_result (commit_command message all_files amend) p)
               [30%N] S); simpl; auto.
      apply commit_result_status.
Qed.

Lemma push_command_head remote b force set_upstream :
  hd [] (push_command remote b force set_upstream) = lit "git".
Proof. reflexivity. Qed.

Lemma git_push_verdict remote branch force set_upstream repository_path w :
  let out := git_push host remote branch force set_upstream
               repository_path w in
  status_by_exit 120 out
  /\ failures_reported out
  /\ runs_in_repository host repository_path [10; 120]%N out.
Proof.
  intros out. destruct branch as [b|].
  - destruct (git_push_given_cases remote b force set_upstream
                repository_path w)
      as [St|(p & w1 & t1 & r & w2 & S & E)];
      fold out in St || fold out in E.
    + eapply stopped_verdict; eauto.
    + rewrite E.
      apply (@ran_once_verdict W host _ _ _ _ _
             (mkCommand (push_command remote b force set_upstream)
                       p 120)
             r w2 Push
               (push_result remote b
                  (push_command remote b force set_upstream) p)
               [10; 120]%N S); simpl; auto.
      apply push_result_status.
  - destruct (git_push_discovery_cases remote force set_upstream
                repository_path w)
      as [St|[(p & w1 & t1 & r0 & w2 & S & D & E)
             |(p & w1 & t1 & r0 & b & r & w3 & S & D & E)]];
      fold out in St || fold out in E.
    + eapply stopped_verdict; eauto.
    + rewrite E. eapply discovery_stop_verdict; eauto.
    + rewrite E. eapply discovered_verdict; eauto.
      apply push_result_status.
Qed.

Lemma git_status_verdict repository_path w :
  let out := git_status host repository_path w in
  status_by_exit 10 out
  /\ failures_reported out
  /\ runs_in_repository host repository_path [10%N] out.
Proof.
  intros out.
  destruct (git_status_inv host repository_path w)
    as [St|(p & w1 & t1 & r & w2 & S & _ & E)];
    fold out in St || fold out in E.
  - eapply stopped_verdict; eauto.
  - rewrite E.
    apply (@ran_once_verdict W host _ _ _ _ _
             (mkCommand [lit "git"; lit "status"; lit "--porcelain"]
                     p 10)
             r w2 Status (status_result p) [10%N] S); simpl; auto.
    apply status_result_status.
Qed.

End Cases.

(* ===================================================================== *)
(** ** Joining and splitting *)
(* ===================================================================== *)

Lemma truthy_strip_blank s : truthy (strip s) = negb (blank s).
Proof.
  destruct (blank s) eqn:B.
  - apply strip_nil_iff in B. rewrite B. reflexivity.
  - apply truthy_strip. exact B.
Qed.

(** Reading a word that holds no whitespace only grows the word read. *)
Lemma split_from_word word tok rest :
  forallb (fun c => negb (isspace c)) tok = true ->
  split_from word (tok ++ rest) = split_from (rev tok ++ word) rest.
Proof.
  revert word. induction tok as [|c tok IH]; intros word H; simpl; auto.
  simpl in H. apply andb_prop in H. destruct H as [Hc Ht].
  destruct (isspace c); [discriminate|].
  rewrite IH by exact Ht. simpl. rewrite <- app_assoc. reflexivity.
Qed.

(** Tokens joined by single spaces split back into the same tokens. *)
Lemma split_join toks :
  Forall (fun tok => tok <> [] /\ forallb (fun c => negb (isspace c)) tok = true)
         toks ->
  split (join (lit " ") toks) = toks.
Proof.
  unfold split. induction 1 as [|x l [Nx Hx] Hl IH]; [reflexivity|].
  assert (K : forall rest,
             split_from (rev x) (32%N :: rest) = x :: split_from [] rest).
  { intros rest. simpl.
    pose proof (rev_involutive x) as R.
    destruct (rev x) as [|n rx]; [simpl in R; congruence|].
    rewrite R. reflexivity. }
  assert (K0 : split_from (rev x) [] = [x]).
  { simpl. pose proof (rev_involutive x) as R.
    destruct (rev x) as [|n rx]; [simpl in R; congruence|].
    rewrite R. reflexivity. }
  destruct l as [|y l].
  - simpl. rewrite <- (app_nil_r x) at 1.
    rewrite split_from_word by exact Hx. rewrite app_nil_r. exact K0.
  - change (join (lit " ") (x :: y :: l))
      with (x ++ 32%N :: join (lit " ") (y :: l)).
    rewrite split_from_word by exact Hx. rewrite app_nil_r.
    rewrite K, IH. reflexivity.
Qed.

(** Every token of a [git add] command is a word without whitespace. *)
Lemma add_command_tokens files all_files interactive patch cmd :
  add_command files all_files interactive patch = Some cmd ->
  Forall (fun tok => tok <> [] /\ forallb (fun c => negb (isspace c)) tok = true)
         cmd.
Proof.
  assert (G : forall s : string,
             (forallb (fun c => negb (isspace c)) (lit s) = true) ->
             lit s <> [] ->
             lit s <> [] /\ forallb (fun c => negb (isspace c)) (lit s) = true)
    by auto.
  unfold add_command.
  destruct interactive;
    [intros H; injection H as <-;
     repeat constructor; try reflexivity; vm_compute; discriminate|].
  destruct patch;
    [intros H; injection H as <-;
     repeat constructor; try reflexivity; vm_compute; discriminate|].
  destruct all_files;
    [intros H; injection H as <-;
     repeat constructor; try reflexivity; vm_compute; discriminate|].
  destruct (truthy_opt files) as [f|]; [|discriminate].
  intros H; injection H as <-. simpl.
  constructor; [split; [vm_compute; discriminate | reflexivity]|].
  constructor; [split; [vm_compute; discriminate | reflexivity]|].
  apply split_tokens.
Qed.

Lemma last_push_command remote b force set_upstream :
  last (push_command remote b force set_upstream) [] = b.
Proof. destruct force, set_upstream; reflexivity. Qed.

(* ===================================================================== *)
(** ** Further properties of the handlers *)
(* ===================================================================== *)

Section Properties.
Context {W : Type} (host : Host W).

(** X1.  Every handler returns a status that is ["success"] or ["error"],
    and ["success"] exactly when its process finished with exit code 0: the
    [git add] and [git commit] process (30 seconds), the [git push] process
    (120 seconds, the discovery does not count), the [git status] process
    (10 seconds). *)
Theorem status_follows_exit_code
    files all_files interactive patch message amend
    remote branch force set_upstream repository_path w :
  status_by_exit 30 (git_add host files all_files interactive patch
                       repository_path w)
  /\ status_by_exit 30 (git_commit host message all_files amend
                          repository_path w)
  /\ status_by_exit 120 (git_push host remote branch force set_upstream
                           repository_path w)
  /\ status_by_exit 10 (git_status host repository_path w).
Proof.
  destruct (git_add_verdict host files all_files interactive patch
              repository_path w) as (A1 & A2 & A3).
  destruct (git_commit_verdict host message all_files amend
              repository_path w) as (C1 & C2 & C3).
  destruct (git_push_verdict host remote branch force set_upstream
              repository_path w) as (P1 & P2 & P3).
  destruct (git_status_verdict host repository_path w) as (S1 & S2 & S3).
  exact (conj A1 (conj C1 (conj P1 S1))).
Qed.

(** X2.  Whenever [pathlib] or [subprocess.run] raises an exception that is
    not the timeout, the handler returns the error whose message is
    ["Unexpected error: "] followed by [str(e)], and nothing else. *)
Theorem host_exceptions_are_reported
    files all_files interactive patch message amend
    remote branch force set_upstream repository_path w :
  failures_reported (git_add host files all_files interactive patch
                       repository_path w)
  /\ failures_reported (git_commit host message all_files amend
                          repository_path w)
  /\ failures_reported (git_push host remote branch force set_upstream
                          repository_path w)
  /\ failures_reported (git_status host repository_path w).
Proof.
  destruct (git_add_verdict host files all_files interactive patch
              repository_path w) as (A1 & A2 & A3).
  destruct (git_commit_verdict host message all_files amend
              repository_path w) as (C1 & C2 & C3).
  destruct (git_push_verdict host remote branch force set_upstream
              repository_path w) as (P1 & P2 & P3).
  destruct (git_status_verdict host repository_path w) as (S1 & S2 & S3).
  exact (conj A2 (conj C2 (conj P2 S2))).
Qed.

(** X3.  Every process a handler spawns is [git], with 30 seconds for
    [git_add] and [git_commit], 10 or 120 for [git_push] and 10 for
    [git_status], and it runs in the directory the call settled on, the
    resolved [repository_path] or else the current directory, after [.git]
    was seen to exist in it. *)
Theorem processes_run_in_the_repository
    files all_files interactive patch message amend
    remote branch force set_upstream repository_path w :
  runs_in_repository host repository_path [30%N]
    (git_add host files all_files interactive patch repository_path w)
  /\ runs_in_repository host repository_path [30%N]
       (git_commit host message all_files amend repository_path w)
  /\ runs_in_repository host repository_path [10; 120]%N
       (git_push host remote branch force set_upstream repository_path w)
  /\ runs_in_repository host repository_path [10%N]
       (git_status host repository_path w).
Proof.
  destruct (git_add_verdict host files all_files interactive patch
              repository_path w) as (A1 & A2 & A3).
  destruct (git_commit_verdict host message all_files amend
              repository_path w) as (C1 & C2 & C3).
  destruct (git_push_verdict host remote branch force set_upstream
              repository_path w) as (P1 & P2 & P3).
  destruct (git_status_verdict host repository_path w) as (S1 & S2 & S3).
  exact (conj A3 (conj C3 (conj P3 S3))).
Qed.

(** X4.  When the [git add], [git commit] or [git push] process finishes,
    with whatever exit code, the result echoes the command as its tokens
    joined by single spaces, and gives the directory it ran in. *)
Theorem command_is_echoed
    files all_files interactive patch message amend
    remote branch force set_upstream repository_path w c result :
  (In (c, Completed result)
      (runs (trace_of (git_add host files all_files interactive patch
                         repository_path w))) ->
   get (lit "command")
     (result_of (git_add host files all_files interactive patch
                   repository_path w))
   = Some (join (lit " ") (argv c))
   /\ get (lit "repository_path")
        (result_of (git_add host files all_files interactive patch
                      repository_path w))
      = Some (fspath (cwd c)))
  /\ (In (c, Completed result)
         (runs (trace_of (git_commit host message all_files amend
                            repository_path w))) ->
      get (lit "command")
        (result_of (git_commit host message all_files amend
                      repository_path w))
      = Some (join (lit " ") (argv c))
      /\ get (lit "repository_path")
           (result_of (git_commit host message all_files amend
                         repository_path w))
         = Some (fspath (cwd c)))
  /\ (In (c, Completed result)
         (runs (trace_of (git_push host remote branch force set_upstream
                            repository_path w))) ->
      timeout c = 120%N ->
      get (lit "command")
        (result_of (git_push host remote branch force set_upstream
                      repository_path w))
      = Some (join (lit " ") (argv c))
      /\ get (lit "repository_path")
           (result_of (git_push host remote branch force set_upstream
                         repository_path w))
         = Some (fspath (cwd c))).
Proof.
  split; [|split].
  - intros H.
    destruct (git_add_cases host files all_files interactive patch
                repository_path w)
      as [St|[(p & w1 & t1 & S & _ & E)
             |(p & w1 & t1 & cmd & r & w2 & S & _ & E)]].
    + rewrite (stopped_runs St) in H. destruct H.
    + rewrite E in H. unfold trace_of in H; simpl in H.
      apply set_working_directory_quiet in S. destruct S as [S _].
      rewrite S in H. destruct H.
    + rewrite E in *. ran H. unfold add_result.
      destruct (returncode result =? 0)%Z; split; reflexivity.
  - intros H. destruct (blank message) eqn:B.
    + rewrite git_commit_blank in H by exact B. destruct H.
    + destruct (git_commit_cases host message all_files amend
                  repository_path w B)
        as [St|(p & w1 & t1 & r & w2 & S & E)].
      * rewrite (stopped_runs St) in H. destruct H.
      * rewrite E in *. ran H. unfold commit_result.
        destruct (returncode result =? 0)%Z; split; reflexivity.
  - intros H T. destruct branch as [b|].
    + destruct (git_push_given_cases host remote b force set_upstream
                  repository_path w)
        as [St|(p & w1 & t1 & r & w2 & S & E)].
      * rewrite (stopped_runs St) in H. destruct H.
      * rewrite E in *. ran H. unfold push_result.
        destruct (returncode result =? 0)%Z; split; reflexivity.
    + destruct (git_push_discovery_cases host remote force set_upstream
                  repository_path w)
        as [St|[(p & w1 & t1 & r0 & w2 & S & D & E)
               |(p & w1 & t1 & r0 & b & r & w3 & S & D & E)]].
      * rewrite (stopped_runs St) in H. destruct H.
      * rewrite E in *. ran H. discriminate.
      * rewrite E in *. ran H; [discriminate|]. unfold push_result.
        destruct (returncode result =? 0)%Z; split; reflexivity.
Qed.

(** X5.  When the [git add] process exits with 0 the result says the files
    were staged and carries the trimmed standard output, or ["No output"]
    when that is empty, and no ["stderr"]; when it exits with another code
    the result says the command failed and carries the trimmed standard
    error, and no ["stdout"]. *)
Theorem add_output_fields
    files all_files interactive patch repository_path w c result :
  let out := git_add host files all_files interactive patch
               repository_path w in
  In (c, Completed result) (runs (trace_of out)) ->
  (returncode result = 0%Z ->
   get (lit "message") (result_of out)
   = Some (lit "Files successfully added to staging area")
   /\ get (lit "stdout") (result_of out)
      = Some (if blank (stdout result)
              then lit "No output" else strip (stdout result))
   /\ get (lit "stderr") (result_of out) = None)
  /\ (returncode result <> 0%Z ->
      get (lit "message") (result_of out)
      = Some (lit "Git add command failed")
      /\ get (lit "stderr") (result_of out) = Some (strip (stderr result))
      /\ get (lit "stdout") (result_of out) = None).
Proof.
  intros out H. unfold out in *.
  destruct (git_add_cases host files all_files interactive patch
              repository_path w)
    as [St|[(p & w1 & t1 & S & _ & E)
           |(p & w1 & t1 & cmd & r & w2 & S & _ & E)]].
  - rewrite (stopped_runs St) in H. destruct H.
  - rewrite E in H. unfold trace_of in H; simpl in H.
    apply set_working_directory_quiet in S. destruct S as [S _].
    rewrite S in H. destruct H.
  - rewrite E in *. ran H. unfold add_result. split.
    + intros Z. rewrite Z. cbn [Z.eqb].
      rewrite truthy_strip_blank.
      destruct (blank (stdout result)); repeat split; reflexivity.
    + intros Z. apply Z.eqb_neq in Z. rewrite Z. repeat split; reflexivity.
Qed.

(** X6.  When the [git commit] process exits with 0 the result carries the
    trimmed standard output as it is, the empty string included; when it
    exits with another code the result carries the trimmed standard
    error and no ["stdout"]. *)
Theorem commit_output_fields
    message all_files amend repository_path w c result :
  let out := git_commit host message all_files amend repository_path w in
  In (c, Completed result) (runs (trace_of out)) ->
  (returncode result = 0%Z ->
   get (lit "message") (result_of out)
   = Some (lit "Commit created successfully")
   /\ get (lit "stdout") (result_of out) = Some (strip (stdout result))
   /\ get (lit "stderr") (result_of out) = None)
  /\ (returncode result <> 0%Z ->
      get (lit "message") (result_of out)
      = Some (lit "Git commit command failed")
      /\ get (lit "stderr") (result_of out) = Some (strip (stderr result))
      /\ get (lit "stdout") (result_of out) = None).
Proof.
  intros out H. unfold out in *. destruct (blank message) eqn:B.
  - rewrite git_commit_blank in H by exact B. destruct H.
  - destruct (git_commit_cases host message all_files amend
                repository_path w B)
      as [St|(p & w1 & t1 & r & w2 & S & E)].
    + rewrite (stopped_runs St) in H. destruct H.
    + rewrite E in *. ran H. unfold commit_result. split.
      * intros Z. rewrite Z. repeat split; reflexivity.
      * intros Z. apply Z.eqb_neq in Z. rewrite Z.
        repeat split; reflexivity.
Qed.

(** X7.  When the [git push] process exits with 0 the message names the
    remote and the branch pushed, the last token of the command, and the
    result carries both trimmed streams; when it exits with another code
    the message names them too and the result carries the trimmed standard
    error and no ["stdout"]. *)
Theorem push_output_fields
    remote branch force set_upstream repository_path w c result :
  let out := git_push host remote branch force set_upstream
               repository_path w in
  let pushed := last (argv c) [] in
  In (c, Completed result) (runs (trace_of out)) ->
  timeout c = 120%N ->
  (returncode result = 0%Z ->
   get (lit "message") (result_of out)
   = Some (lit "Successfully pushed to " ++ remote ++ lit "/" ++ pushed)
   /\ get (lit "stdout") (result_of out) = Some (strip (stdout result))
   /\ get (lit "stderr") (result_of out) = Some (strip (stderr result)))
  /\ (returncode result <> 0%Z ->
      get (lit "message") (result_of out)
      = Some (lit "Git push to " ++ remote ++ lit "/" ++ pushed
                ++ lit " failed")
      /\ get (lit "stderr") (result_of out) = Some (strip (stderr result))
      /\ get (lit "stdout") (result_of out) = None).
Proof.
  intros out pushed H T. unfold out, pushed in *. clear out pushed.
  assert (K : forall b p,
    let cmd := push_command remote b force set_upstream in
    let d := push_result remote b cmd p result in
    (returncode result = 0%Z ->
     get (lit "message") d
     = Some (lit "Successfully pushed to " ++ remote ++ lit "/"
               ++ last cmd [])
     /\ get (lit "stdout") d = Some (strip (stdout result))
     /\ get (lit "stderr") d = Some (strip (stderr result)))
    /\ (returncode result <> 0%Z ->
        get (lit "message") d
        = Some (lit "Git push to " ++ remote ++ lit "/" ++ last cmd []
                  ++ lit " failed")
        /\ get (lit "stderr") d = Some (strip (stderr result))
        /\ get (lit "stdout") d = None)).
  { intros b p cmd d. unfold d, cmd. rewrite last_push_command.
    unfold push_result. split.
    - intros Z. rewrite Z. repeat split; reflexivity.
    - intros Z. apply Z.eqb_neq in Z. rewrite Z. repeat split; reflexivity. }
  destruct branch as [b|].
  - destruct (git_push_given_cases host remote b force set_upstream
                repository_path w)
      as [St|(p & w1 & t1 & r & w2 & S & E)].
    + rewrite (stopped_runs St) in H. destruct H.
    + rewrite E in *. ran H. apply K.
  - destruct (git_push_discovery_cases host remote force set_upstream
                repository_path w)
      as [St|[(p & w1 & t1 & r0 & w2 & S & D & E)
             |(p & w1 & t1 & r0 & b & r & w3 & S & D & E)]].
    + rewrite (stopped_runs St) in H. destruct H.
    + rewrite E in *. ran H. discriminate.
    + rewrite E in *. ran H; [discriminate|]. apply K.
Qed.

(** X8.  When the [git status] process finishes, the result is one of two
    dictionaries: on exit code 0 the success with the directory, the
    trimmed output and the fixed message; on another code the error with
    the fixed message and the trimmed standard error, which holds no
    command, no directory and no output. *)
Theorem status_result_in_full repository_path w c result :
  In (c, Completed result)
     (runs (trace_of (git_status host repository_path w))) ->
  (returncode result = 0%Z ->
   result_of (git_status host repository_path w)
   = [(lit "status", lit "success");
      (lit "repository_path", fspath (cwd c));
      (lit "porcelain_output", strip (stdout result));
      (lit "message", lit "Git status retrieved successfully")])
  /\ (returncode result <> 0%Z ->
      result_of (git_status host repository_path w)
      = [(lit "status", lit "error");
         (lit "message", lit "Git status command failed");
         (lit "stderr", strip (stderr result))]).
Proof.
  intros H.
  destruct (git_status_inv host repository_path w)
    as [St|(p & w1 & t1 & r & w2 & S & _ & E)].
  - rewrite (stopped_runs St) in H. destruct H.
  - rewrite E in *. ran H. unfold status_result. split.
    + intros Z. rewrite Z. reflexivity.
    + intros Z. apply Z.eqb_neq in Z. rewrite Z. reflexivity.
Qed.

(** X9.  A [files] string that is not empty but holds only whitespace does
    not count as missing: once the checks pass, with the three flags
    false, [git_add] runs [git add] with no argument at all, and its result
    is not the MissingTarget error. *)
Theorem blank_files_run_bare_add files repository_path w p w1 t1 :
  files <> [] -> blank files = true ->
  set_working_directory host repository_path w = (Normal p, w1, t1) ->
  let out := git_add host (Some files) false false false
               repository_path w in
  spawned (trace_of out) = [mkCommand [lit "git"; lit "add"] p 30]
  /\ result_of out <> MissingTarget.
Proof.
  intros N B S out.
  assert (C : add_command (Some files) false false false
              = Some [lit "git"; lit "add"]).
  { unfold add_command. destruct files as [|ch f]; [contradiction|].
    apply strip_nil_iff in B. simpl. rewrite B. reflexivity. }
  destruct (subprocess_run host (mkCommand [lit "git"; lit "add"] p 30) w1)
    as [r w2] eqn:R.
  unfold out. rewrite (git_add_exact host _ _ _ _ _ _ S C R).
  unfold spawned, trace_of, result_of; simpl fst; simpl snd.
  erewrite runs_after_checks by exact S. split; [reflexivity|].
  intros H. apply (f_equal shape) in H.
  destruct r as [result| |str_e]; cbn [shaped] in H.
  - unfold add_result in H.
    destruct (returncode result =? 0)%Z; vm_compute in H; discriminate.
  - vm_compute in H. discriminate.
  - vm_compute in H. discriminate.
Qed.

(** X10.  When the branch discovery of [git_push], which has 10 seconds,
    times out, the result is the timeout error of the push, whose message
    says 2 minutes, and nothing is pushed. *)
Theorem discovery_timeout_is_reported_as_push_timeout
    remote force set_upstream repository_path w c :
  let out := git_push host remote None force set_upstream
               repository_path w in
  In (c, TimedOut) (runs (trace_of out)) ->
  timeout c = 10%N ->
  argv c = [lit "git"; lit "branch"; lit "--show-current"]
  /\ spawned (trace_of out) = [c]
  /\ get (lit "message") (result_of out)
     = Some (lit "Git push command timed out after 2 minutes").
Proof.
  intros out H T. unfold out in *. clear out.
  destruct (git_push_discovery_cases host remote force set_upstream
              repository_path w)
    as [St|[(p & w1 & t1 & r0 & w2 & S & D & E)
           |(p & w1 & t1 & r0 & b & r & w3 & S & D & E)]].
  - rewrite (stopped_runs St) in H. destruct H.
  - rewrite E in *. unfold spawned.
    unfold trace_of, result_of in *; simpl fst; simpl snd in *.
    erewrite runs_after_checks in * by exact S. simpl in H.
    destruct H as [H|[]]. injection H as <- ->.
    repeat split; reflexivity.
  - rewrite E in *.
    unfold trace_of, result_of in *; simpl fst; simpl snd in *.
    erewrite runs_after_checks in * by exact S. simpl in H.
    destruct H as [H|[H|[]]]; injection H as <- ->.
    + simpl in D. discriminate.
    + simpl in T. discriminate.
Qed.

(** X11.  The command that [git_add] echoes can be read back: splitting it
    on whitespace gives exactly the tokens the process was run with. *)
Theorem add_command_reads_back
    files all_files interactive patch repository_path w c result :
  let out := git_add host files all_files interactive patch
               repository_path w in
  In (c, Completed result) (runs (trace_of out)) ->
  exists echoed,
    get (lit "command") (result_of out) = Some echoed
    /\ split echoed = argv c.
Proof.
  intros out H. unfold out in *. clear out.
  destruct (git_add_cases host files all_files interactive patch
              repository_path w)
    as [St|[(p & w1 & t1 & S & _ & E)
           |(p & w1 & t1 & cmd & r & w2 & S & C & E)]].
  - rewrite (stopped_runs St) in H. destruct H.
  - rewrite E in H. unfold trace_of in H; simpl in H.
    apply set_working_directory_quiet in S. destruct S as [S _].
    rewrite S in H. destruct H.
  - rewrite E in *.
    unfold trace_of, result_of in *; simpl fst; simpl snd in *.
    erewrite runs_after_checks in H by exact S. simpl in H.
    destruct H as [H|[]]. injection H as <- ->.
    exists (join (lit " ") cmd). split.
    + cbn [shaped]. unfold add_result.
      destruct (returncode result =? 0)%Z; reflexivity.
    + apply split_join. eapply add_command_tokens; eauto.
Qed.

(** X12.  A branch that is given to [git_push], the empty string included,
    is never discovered: once the checks pass the call spawns the push
    itself and nothing else, with the branch as given for its last token,
    and every process of the call is that push, with 120 seconds. *)
Theorem given_branch_is_not_discovered
    remote b force set_upstream repository_path w :
  let out := git_push host remote (Some b) force set_upstream
               repository_path w in
  (forall p w1 t1,
      set_working_directory host repository_path w = (Normal p, w1, t1) ->
      spawned (trace_of out)
      = [mkCommand
           ([lit "git"; lit "push"]
              ++ (if force then [lit "--force"] else [])
              ++ (if set_upstream then [lit "-u"] else [])
              ++ [remote; b]) p 120])
  /\ (forall c r,
      In (c, r) (runs (trace_of out)) ->
      timeout c = 120%N
      /\ argv c <> [lit "git"; lit "branch"; lit "--show-current"]
      /\ last (argv c) [] = b).
Proof.
  intros out. unfold out. clear out. split.
  { intros p w1 t1 S. eapply git_push_given_spawned; eassumption. }
  intros c r H.
  destruct (git_push_given_cases host remote b force set_upstream
              repository_path w)
    as [St|(p & w1 & t1 & r' & w2 & S & E)].
  - rewrite (stopped_runs St) in H. destruct H.
  - rewrite E in *.
    unfold trace_of in *; simpl snd in *.
    erewrite runs_after_checks in H by exact S. simpl in H.
    destruct H as [H|[]]. injection H as <- _. simpl.
    split; [reflexivity|]. split; [|apply last_push_command].
    unfold push_command. destruct force, set_upstream; simpl;
      intros X; injection X; intros; discriminate.
Qed.

End Properties.

Lemma status_follows_exit_code_witness :
  get (lit "status")
    (result_of (git_status (mock disk) None [exit0 (lit " M a.txt")]))
  = Some (lit "success")
  /\ get (lit "status")
       (result_of (git_commit (mock disk) (lit "fix") false false None
                     [Completed (mkCompleted 1 []
                                   (lit "nothing to commit"))]))
     = Some (lit "error").
Proof.
  destruct (@status_follows_exit_code _ (mock disk) None false false false
              (lit "fix") false (lit "origin") None false false None
              [exit0 (lit " M a.txt")]) as (_ & _ & _ & [_ [_ S]]).
  destruct (@status_follows_exit_code _ (mock disk) None false false false
              (lit "fix") false (lit "origin") None false false None
              [Completed (mkCompleted 1 [] (lit "nothing to commit"))])
    as (_ & [[X|X] [C _]] & _).
  - exfalso. destruct (C X) as (c & result & [H|[]] & _ & Z).
    injection H as _ <-. discriminate.
  - split; [|exact X].
    apply S.
    exists (mkCommand [lit "git"; lit "status"; lit "--porcelain"] work 10),
      (mkCompleted 0 (lit " M a.txt") []).
    split; [left; reflexivity | split; reflexivity].
Defined.

Lemma host_exceptions_are_reported_witness :
  result_of (git_add (mock disk) None true false false None [])
  = unexpected (lit "[Errno 2] No such file or directory: 'git'").
Proof.
  destruct (@host_exceptions_are_reported _ (mock disk) None true false false
              (lit "fix") false (lit "origin") None false false None [])
    as (A & _).
  apply (A (EvRun (mkCommand [lit "git"; lit "add"; lit "."] work 30)
              (LaunchFailed
                 (lit "[Errno 2] No such file or directory: 'git'")))).
  - right; right; left; reflexivity.
  - reflexivity.
Defined.

Lemma processes_run_in_the_repository_witness :
  let out := git_push (mock (lit "/srv/repo" :: lit "/srv/repo/.git" :: disk))
               (lit "origin") (Some (lit "main")) false false
               (Some (lit "/srv/repo")) [exit0 []] in
  In (EvResolve (lit "/srv/repo") (Ok (mkPath (lit "/srv/repo"))))
     (trace_of out)
  /\ In (EvExists (mkPath (lit "/srv/repo/.git")) (Ok true)) (trace_of out).
Proof.
  intros out.
  destruct (@processes_run_in_the_repository _
              (mock (lit "/srv/repo" :: lit "/srv/repo/.git" :: disk))
              None false false false (lit "fix") false
              (lit "origin") (Some (lit "main")) false false
              (Some (lit "/srv/repo")) [exit0 []]) as (_ & _ & P & _).
  destruct (P (mkCommand [lit "git"; lit "push"; lit "origin"; lit "main"]
                 (mkPath (lit "/srv/repo")) 120) (exit0 [])
              (or_introl eq_refl)) as (_ & _ & G & R).
  split; [exact R | exact G].
Defined.

Lemma command_is_echoed_witness :
  get (lit "command")
    (result_of (git_commit (mock disk) (lit "fix it") false false None
                  [exit0 []]))
  = Some (lit "git commit -m fix it").
Proof.
  destruct (@command_is_echoed _ (mock disk) None false false false
              (lit "fix it") false (lit "origin") None false false None
              [exit0 []]
              (mkCommand [lit "git"; lit "commit"; lit "-m"; lit "fix it"]
                 work 30)
              (mkCompleted 0 [] [])) as (_ & C & _).
  exact (proj1 (C (or_introl eq_refl))).
Defined.

Lemma add_output_fields_witness :
  get (lit "stdout")
    (result_of (git_add (mock disk) None true false false None
                  [exit0 (lit "  ")]))
  = Some (lit "No output").
Proof.
  destruct (@add_output_fields _ (mock disk) None true false false None
              [exit0 (lit "  ")]
              (mkCommand [lit "git"; lit "add"; lit "."] work 30)
              (mkCompleted 0 (lit "  ") []) (or_introl eq_refl)) as [Z _].
  exact (proj1 (proj2 (Z eq_refl))).
Defined.

Lemma commit_output_fields_witness :
  get (lit "stdout")
    (result_of (git_commit (mock disk) (lit "fix") false false None
                  [exit0 (lit "  ")]))
  = Some (lit "").
Proof.
  destruct (@commit_output_fields _ (mock disk) (lit "fix") false false None
              [exit0 (lit "  ")]
              (mkCommand [lit "git"; lit "commit"; lit "-m"; lit "fix"]
                 work 30)
              (mkCompleted 0 (lit "  ") []) (or_introl eq_refl)) as [Z _].
  exact (proj1 (proj2 (Z eq_refl))).
Defined.

Lemma push_output_fields_witness :
  get (lit "message")
    (result_of (git_push (mock disk) (lit "origin") None true false None
                  [exit0 (lit "main "); exit0 []]))
  = Some (lit "Successfully pushed to origin/main").
Proof.
  destruct (@push_output_fields _ (mock disk) (lit "origin") None true false
              None [exit0 (lit "main "); exit0 []]
              (mkCommand [lit "git"; lit "push"; lit "--force";
                          lit "origin"; lit "main"] work 120)
              (mkCompleted 0 [] []) (or_intror (or_introl eq_refl)) eq_refl)
    as [Z _].
  exact (proj1 (Z eq_refl)).
Defined.

Lemma status_result_in_full_witness :
  result_of (git_status (mock disk) None
               [Completed (mkCompleted 128 [] (lit "fatal: bad object "))])
  = [(lit "status", lit "error");
     (lit "message", lit "Git status command failed");
     (lit "stderr", lit "fatal: bad object")]
  /\ result_of (git_status (mock disk) None [exit0 (lit " M a.txt ")])
     = [(lit "status", lit "success");
        (lit "repository_path", lit "/work");
        (lit "porcelain_output", lit "M a.txt");
        (lit "message", lit "Git status retrieved successfully")].
Proof.
  split.
  - apply (@status_result_in_full _ (mock disk) None
             [Completed (mkCompleted 128 [] (lit "fatal: bad object "))]
             (mkCommand [lit "git"; lit "status"; lit "--porcelain"] work 10)
             (mkCompleted 128 [] (lit "fatal: bad object "))
             (or_introl eq_refl)).
    discriminate.
  - apply (@status_result_in_full _ (mock disk) None
             [exit0 (lit " M a.txt ")]
             (mkCommand [lit "git"; lit "status"; lit "--porcelain"] work 10)
             (mkCompleted 0 (lit " M a.txt ") [])
             (or_introl eq_refl)).
    reflexivity.
Defined.

Lemma blank_files_run_bare_add_witness :
  spawned (trace_of (git_add (mock disk) (Some (lit "  ")) false false false
                       None [exit0 []]))
  = [mkCommand [lit "git"; lit "add"] work 30].
Proof.
  assert (N : lit "  " <> []) by (vm_compute; discriminate).
  exact (proj1 (@blank_files_run_bare_add _ (mock disk) (lit "  ") None
                  [exit0 []] work [exit0 []]
                  [EvCwd (Ok work);
                   EvExists (mkPath (lit "/work/.git")) (Ok true)]
                  N eq_refl eq_refl)).
Defined.

Lemma discovery_timeout_is_reported_as_push_timeout_witness :
  get (lit "message")
    (result_of (git_push (mock disk) (lit "origin") None false false None
                  [TimedOut]))
  = Some (lit "Git push command timed out after 2 minutes").
Proof.
  exact (proj2 (proj2
    (@discovery_timeout_is_reported_as_push_timeout _ (mock disk)
       (lit "origin") false false None [TimedOut] (discovery work)
       (or_introl eq_refl) eq_refl))).
Defined.

Lemma add_command_reads_back_witness :
  exists echoed,
    get (lit "command")
      (result_of (git_add (mock disk) (Some (lit " a.txt   b.txt "))
                    false false false None [exit0 []]))
    = Some echoed
    /\ split echoed = [lit "git"; lit "add"; lit "a.txt"; lit "b.txt"].
Proof.
  exact (@add_command_reads_back _ (mock disk) (Some (lit " a.txt   b.txt "))
           false false false None [exit0 []]
           (mkCommand [lit "git"; lit "add"; lit "a.txt"; lit "b.txt"]
              work 30)
           (mkCompleted 0 [] []) (or_introl eq_refl)).
Defined.

Lemma given_branch_is_not_discovered_witness :
  spawned (trace_of (git_push (mock disk) (lit "origin") (Some (lit ""))
                       false false None [exit0 []]))
  = [mkCommand [lit "git"; lit "push"; lit "origin"; lit ""] work 120].
Proof.
  exact (proj1
    (@given_branch_is_not_discovered _ (mock disk) (lit "origin") (lit "")
       false false None [exit0 []])
    work [exit0 []]
    [EvCwd (Ok work); EvExists (mkPath (lit "/work/.git")) (Ok true)]
    eq_refl).
Defined.
